(** * Story Time Locator: the event filtering and ranking pipeline

    A shallow embedding of [app.py]: the age-range extractor, the filter
    stage chain, the temporal annotator, the sorter and the [search]
    orchestrator, followed by the properties established about them.

    Modelling conventions.
    - Text is ASCII: a Python [str] is a Rocq [string]; bytes above 127 are
      inert (neither digit, space nor letter).
    - Event records are the JSON objects written by the scrapers: every
      attribute the pipeline reads is a string (or absent), [categories] is a
      list of strings (or absent).
    - A calendar date is its proleptic Gregorian ordinal ([date.toordinal()]),
      a [datetime] its number of microseconds since ordinal 0; both maps are
      strictly monotone, so comparisons agree with Python's.
    - [int()] is unbounded (the interpreter's optional digit limit is not
      modelled), and "today" is an explicit argument far enough from
      9999-12-31 for [today + timedelta(days=30)] to exist.
    - The dictionaries held by the module-level collections live in a heap
      indexed by locations; dictionaries built during a request are owned by
      the request's working list. *)

From Stdlib Require Import ZArith String Ascii List Bool Lia Floats Uint63.
From Stdlib Require Import Sorting.Sorted Sorting.Permutation.
From stdpp Require Import gmap strings.

Import ListNotations.
Open Scope string_scope.
Open Scope Z_scope.

(* ================================================================== *)
(** * Python strings *)

Module PyStr.

Definition is_digit (c : ascii) : bool :=
  let n := nat_of_ascii c in (48 <=? n)%nat && (n <=? 57)%nat.

(** [str.isspace] on the ASCII range: TAB..CR, FS..US and SPACE. *)
Definition is_space (c : ascii) : bool :=
  let n := nat_of_ascii c in
  ((9 <=? n)%nat && (n <=? 13)%nat) || ((28 <=? n)%nat && (n <=? 32)%nat).

Definition lower_char (c : ascii) : ascii :=
  let n := nat_of_ascii c in
  if (65 <=? n)%nat && (n <=? 90)%nat then ascii_of_nat (n + 32) else c.

(** [s.lower()] *)
Fixpoint lower (s : string) : string :=
  match s with
  | EmptyString => EmptyString
  | String c s' => String (lower_char c) (lower s')
  end.

(** [needle in hay] *)
Fixpoint contains (needle hay : string) : bool :=
  String.prefix needle hay ||
  match hay with
  | EmptyString => false
  | String _ hay' => contains needle hay'
  end.

(** [x in xs] for a list of strings *)
Definition mem (x : string) (xs : list string) : bool :=
  existsb (String.eqb x) xs.

(** [s.split(sep)] for a one-character separator; [acc] is the reversed
    prefix of the current part. *)
Fixpoint split_aux (sep : ascii) (s : string) (acc : string) : list string :=
  match s with
  | EmptyString => [String.rev acc]
  | String c s' =>
      if Ascii.eqb c sep then String.rev acc :: split_aux sep s' EmptyString
      else split_aux sep s' (String c acc)
  end.

Definition split (sep : ascii) (s : string) : list string :=
  split_aux sep s EmptyString.

Fixpoint lstrip (s : string) : string :=
  match s with
  | String c s' => if is_space c then lstrip s' else s
  | EmptyString => EmptyString
  end.

Definition strip (s : string) : string :=
  String.rev (lstrip (String.rev (lstrip s))).

Definition digit_val (c : ascii) : Z := Z.of_nat (nat_of_ascii c) - 48.

(** Digits of a decimal literal, underscores allowed between digits only.
    [prev] tells whether the previous character was a digit. *)
Fixpoint int_digits (s : string) (prev : bool) (acc : Z) : option Z :=
  match s with
  | EmptyString => if prev then Some acc else None
  | String c s' =>
      if is_digit c then int_digits s' true (10 * acc + digit_val c)
      else if Ascii.eqb c "_" && prev then
        match s' with
        | String d _ => if is_digit d then int_digits s' false acc else None
        | EmptyString => None
        end
      else None
  end.

(** [int(s)]: [None] stands for [ValueError]. *)
Definition int (s : string) : option Z :=
  match strip s with
  | String "+" s' => int_digits s' false 0
  | String "-" s' => option_map Z.opp (int_digits s' false 0)
  | s' => int_digits s' false 0
  end.

(** [str(n)] for a non-negative integer. *)
Fixpoint digits_of (fuel : nat) (n : Z) (acc : string) : string :=
  match fuel with
  | O => acc
  | S fuel' =>
      let acc' := String (ascii_of_nat (Z.to_nat (48 + n mod 10))) acc in
      if n <? 10 then acc' else digits_of fuel' (n / 10) acc'
  end.

Definition str_of_Z (n : Z) : string :=
  digits_of (S (Z.to_nat (Z.log2 n))) n EmptyString.

(** [f"{n:02d}"] for a non-negative integer. *)
Definition str_of_Z_02 (n : Z) : string :=
  if n <? 10 then String "0" (str_of_Z n) else str_of_Z n.

End PyStr.

(* ================================================================== *)
(** * Regular expressions

    The fragment of Python's [re] used by [app.py] and by [strptime]:
    a backtracking matcher in continuation-passing style, leftmost
    alternative and greedy repetition first, with capture groups recorded in
    the order they close. *)

Module Re.

Inductive regex : Type :=
| Eps
| Chr (c : ascii)
| Cls (p : ascii -> bool)
| Seq (r1 r2 : regex)
| Alt (r1 r2 : regex)
| Opt (r : regex)
| Rep (min : nat) (p : ascii -> bool)
| Grp (r : regex).

(** The literal string [s]. *)
Fixpoint lit (s : string) : regex :=
  match s with
  | EmptyString => Eps
  | String c EmptyString => Chr c
  | String c s' => Seq (Chr c) (lit s')
  end.

Fixpoint seqs (rs : list regex) : regex :=
  match rs with
  | [] => Eps
  | [r] => r
  | r :: rs' => Seq r (seqs rs')
  end.

Fixpoint alts (r : regex) (rs : list regex) : regex :=
  match rs with
  | [] => r
  | r' :: rs' => Alt r (alts r' rs')
  end.

(** Greedy [p{min,}]: the longest run first, shorter ones on backtracking. *)
Fixpoint rep_greedy {A} (p : ascii -> bool) (min : nat) (s : string)
    (k : string -> option A) : option A :=
  match s with
  | String c s' =>
      if p c then
        match rep_greedy p (Nat.pred min) s' k with
        | Some x => Some x
        | None => if (min =? 0)%nat then k s else None
        end
      else if (min =? 0)%nat then k s else None
  | EmptyString => if (min =? 0)%nat then k s else None
  end.

(** The text consumed between [s] and its suffix [s']. *)
Definition consumed (s s' : string) : string :=
  substring 0 (String.length s - String.length s') s.

Fixpoint rmatch {A} (r : regex) (s : string) (caps : list string)
    (k : string -> list string -> option A) : option A :=
  match r with
  | Eps => k s caps
  | Chr c =>
      match s with
      | String c' s' => if Ascii.eqb c c' then k s' caps else None
      | EmptyString => None
      end
  | Cls p =>
      match s with
      | String c' s' => if p c' then k s' caps else None
      | EmptyString => None
      end
  | Seq r1 r2 => rmatch r1 s caps (fun s' caps' => rmatch r2 s' caps' k)
  | Alt r1 r2 =>
      match rmatch r1 s caps k with
      | Some x => Some x
      | None => rmatch r2 s caps k
      end
  | Opt r1 =>
      match rmatch r1 s caps k with
      | Some x => Some x
      | None => k s caps
      end
  | Rep min p => rep_greedy p min s (fun s' => k s' caps)
  | Grp r1 => rmatch r1 s caps (fun s' caps' => k s' (caps' ++ [consumed s s'])%list)
  end.

(** [re.search(r, s)]: the groups of the leftmost match. *)
Fixpoint search (r : regex) (s : string) : option (list string) :=
  match rmatch r s [] (fun _ caps => Some caps) with
  | Some caps => Some caps
  | None =>
      match s with
      | EmptyString => None
      | String _ s' => search r s'
      end
  end.

(** [r.match(s)] followed by the test that nothing of [s] is left, as
    [_strptime] does ("unconverted data remains"). *)
Definition match_all (r : regex) (s : string) : option (list string) :=
  match rmatch r s [] (fun s' caps => Some (s', caps)) with
  | Some (EmptyString, caps) => Some caps
  | _ => None
  end.

Definition digit : regex := Cls PyStr.is_digit.
Definition range (lo hi : ascii) : regex :=
  Cls (fun c => (nat_of_ascii lo <=? nat_of_ascii c)%nat
                && (nat_of_ascii c <=? nat_of_ascii hi)%nat).
Definition digits1 : regex := Rep 1 PyStr.is_digit.
Definition spaces0 : regex := Rep 0 PyStr.is_space.
Definition spaces1 : regex := Rep 1 PyStr.is_space.

End Re.

(* ================================================================== *)
(** * Dates and times: [datetime.strptime]

    [_strptime] turns the format into a regular expression (one named group
    per directive, a run of blanks for a blank), matches it at the start of
    the text, refuses left-over text, converts the groups with [int] and
    builds the value, whose constructor checks the calendar.  Every failure
    is a [ValueError], here [None]. *)

Module PyTime.
Import Re.

Definition re_Y : regex := Grp (seqs [digit; digit; digit; digit]).
Definition re_m : regex :=
  Grp (alts (Seq (Chr "1") (range "0" "2"))
            [Seq (Chr "0") (range "1" "9"); range "1" "9"]).
Definition re_d : regex :=
  Grp (alts (Seq (Chr "3") (range "0" "1"))
            [Seq (range "1" "2") digit; Seq (Chr "0") (range "1" "9");
             range "1" "9"; Seq (Chr " ") (range "1" "9")]).
Definition re_H : regex :=
  Grp (alts (Seq (Chr "2") (range "0" "3")) [Seq (range "0" "1") digit; digit]).
Definition re_M : regex := Grp (Alt (Seq (range "0" "5") digit) digit).
Definition re_S : regex :=
  Grp (alts (Seq (Chr "6") (range "0" "1")) [Seq (range "0" "5") digit; digit]).

(** ['%Y-%m-%d'], ['%H:%M:%S'] and ['%Y-%m-%d %H:%M:%S'] *)
Definition fmt_date : regex := seqs [re_Y; Chr "-"; re_m; Chr "-"; re_d].
Definition fmt_time : regex := seqs [re_H; Chr ":"; re_M; Chr ":"; re_S].
Definition fmt_datetime : regex := seqs [fmt_date; spaces1; fmt_time].

Definition is_leap (y : Z) : bool :=
  (y mod 4 =? 0) && (negb (y mod 100 =? 0) || (y mod 400 =? 0)).

Definition days_in_month (y m : Z) : Z :=
  if m =? 2 then (if is_leap y then 29 else 28)
  else if (m =? 4) || (m =? 6) || (m =? 9) || (m =? 11) then 30
  else 31.

Definition days_before_year (y : Z) : Z :=
  let p := y - 1 in p * 365 + p / 4 - p / 100 + p / 400.

Fixpoint days_before_month_aux (y : Z) (n : nat) : Z :=
  match n with
  | O => 0
  | S n' => days_before_month_aux y n' + days_in_month y (Z.of_nat n)
  end.

Definition days_before_month (y m : Z) : Z :=
  days_before_month_aux y (Z.to_nat (m - 1)).

(** [date(y, m, d).toordinal()] *)
Definition ymd2ord (y m d : Z) : Z :=
  days_before_year y + days_before_month y m + d.

Definition check_date (y m d : Z) : bool :=
  (1 <=? y) && (y <=? 9999) && (1 <=? m) && (m <=? 12)
  && (1 <=? d) && (d <=? days_in_month y m).

Definition check_time (h m s : Z) : bool :=
  (0 <=? h) && (h <=? 23) && (0 <=? m) && (m <=? 59) && (0 <=? s) && (s <=? 59).

Definition ints (groups : list string) : list (option Z) :=
  map PyStr.int groups.

(** [datetime.strptime(s, '%Y-%m-%d').date()], as an ordinal *)
Definition strptime_date (s : string) : option Z :=
  match option_map ints (match_all fmt_date s) with
  | Some [Some y; Some m; Some d] =>
      if check_date y m d then Some (ymd2ord y m d) else None
  | _ => None
  end.

(** A time of day: the fields of [datetime.strptime(s, '%H:%M:%S')]. *)
Record time := mk_time { hour : Z; minute : Z; second : Z }.

Definition seconds_of (t : time) : Z :=
  hour t * 3600 + minute t * 60 + second t.

Definition strptime_time (s : string) : option time :=
  match option_map ints (match_all fmt_time s) with
  | Some [Some h; Some m; Some sec] =>
      if check_time h m sec then Some (mk_time h m sec) else None
  | _ => None
  end.

(** Microseconds since ordinal 0 of the [datetime] with these fields. *)
Definition micros (ord secs us : Z) : Z :=
  (ord * 86400 + secs) * 1000000 + us.

(** [datetime.strptime(s, '%Y-%m-%d %H:%M:%S')] *)
Definition strptime_datetime (s : string) : option Z :=
  match option_map ints (match_all fmt_datetime s) with
  | Some [Some y; Some m; Some d; Some h; Some mi; Some sec] =>
      if check_date y m d && check_time h mi sec
      then Some (micros (ymd2ord y m d) (seconds_of (mk_time h mi sec)) 0)
      else None
  | _ => None
  end.

(** [datetime.max]: 9999-12-31 23:59:59.999999 *)
Definition datetime_max : Z := micros (ymd2ord 9999 12 31) 86399 999999.

(** Conversion of an integer below 2^63 in magnitude to a [float]. *)
Definition float_of_Z (z : Z) : float :=
  if z <? 0 then PrimFloat.opp (PrimFloat.of_uint63 (Uint63.of_Z (- z)))
  else PrimFloat.of_uint63 (Uint63.of_Z z).

(** [(end_dt - start_dt).total_seconds() / 3600] for a difference of [d]
    seconds. *)
Definition hours_of_seconds (d : Z) : float :=
  PrimFloat.div (float_of_Z d) (float_of_Z 3600).

End PyTime.

(* ================================================================== *)
(** * Event records and the object store *)

(** The attribute bag of one event.  [None] is an absent key.  The last
    three attributes are the ones the temporal annotator writes;
    [formatted_end_time] can be present with the value [None] of Python,
    hence the nested option.  [passthrough] holds the attributes the
    pipeline never reads (location, organizer, link, ...). *)
Record event := mk_event {
  title : option string;
  date : option string;
  start_time : option string;
  end_time : option string;
  day_of_week : option string;
  audience : option string;
  description : option string;
  venue_type : option string;
  categories : option (list string);
  city : option string;
  duration_hours : option float;
  is_all_day : option bool;
  formatted_end_time : option (option string);
  passthrough : list (string * string)
}.

(** The empty dictionary [{}]. *)
Definition empty_event : event :=
  mk_event None None None None None None None None None None None None None [].

#[export] Instance event_inhabited : Inhabited event := populate empty_event.

(** [{**e, 'city': c}] *)
Definition with_city (e : event) (c : string) : event :=
  mk_event (title e) (date e) (start_time e) (end_time e) (day_of_week e)
           (audience e) (description e) (venue_type e) (categories e) (Some c)
           (duration_hours e) (is_all_day e) (formatted_end_time e)
           (passthrough e).

(** The three assignments [e['duration_hours'] = d], [e['is_all_day'] = a],
    [e['formatted_end_time'] = f]. *)
Definition with_duration (e : event) (d : float) (a : bool) (f : option string)
  : event :=
  mk_event (title e) (date e) (start_time e) (end_time e) (day_of_week e)
           (audience e) (description e) (venue_type e) (categories e) (city e)
           (Some d) (Some a) (Some f) (passthrough e).

(** Locations of the dictionaries created by [json.load]. *)
Definition loc := nat.

(** The object store: the dictionary found at each location. *)
Abbreviation heap := (gmap loc event).

(** An element of a working list: a reference to a dictionary of the store,
    or a dictionary built by the request itself (a dict display in [search]),
    which nothing else refers to. *)
Inductive ref : Type :=
| Shared (l : loc)
| Local (e : event).

Definition deref (h : heap) (r : ref) : event :=
  match r with
  | Shared l => h !!! l
  | Local e => e
  end.

(** The module-level collections of [app.py]: lists of references. *)
Record snapshot := mk_snapshot {
  jersey_city_events : list loc;
  hoboken_events : list loc;
  bookstore_events : list loc
}.

(* ================================================================== *)
(** * Age-range extractor *)

Import Re.

(** [ages?\s+(\d+)\s*(?:-|to)\s*(\d+)] *)
Definition pattern1 : regex :=
  seqs [lit "age"; Opt (Chr "s"); spaces1; Grp digits1; spaces0;
        Alt (Chr "-") (lit "to"); spaces0; Grp digits1].

(** [for\s+ages?\s+(\d+)\s*(?:-|to)\s*(\d+)] *)
Definition pattern2 : regex :=
  seqs [lit "for"; spaces1; lit "age"; Opt (Chr "s"); spaces1; Grp digits1;
        spaces0; Alt (Chr "-") (lit "to"); spaces0; Grp digits1].

(** [(\d+)\s*-\s*(\d+)\s*years?\s+old] *)
Definition pattern3 : regex :=
  seqs [Grp digits1; spaces0; Chr "-"; spaces0; Grp digits1; spaces0;
        lit "year"; Opt (Chr "s"); spaces1; lit "old"].

(** [(\d+)\s*-\s*(\d+)], searched in the audience *)
Definition audience_pattern : regex :=
  seqs [Grp digits1; spaces0; Chr "-"; spaces0; Grp digits1].

(** [(int(match.group(1)), int(match.group(2)))] of a search, if it matches.
    The groups are non-empty runs of digits, on which [int] cannot fail. *)
Definition search_pair (r : regex) (text : string) : option (Z * Z) :=
  match option_map PyTime.ints (search r text) with
  | Some [Some a; Some b] => Some (a, b)
  | _ => None
  end.

Definition extract_age_range_from_text (text : string) : option (Z * Z) :=
  if String.eqb text "" then None
  else
    match search_pair pattern1 (PyStr.lower text) with
    | Some range => Some range
    | None =>
        match search_pair pattern2 (PyStr.lower text) with
        | Some range => Some range
        | None => search_pair pattern3 (PyStr.lower text)
        end
    end.

Definition check_age_overlap (user_min user_max event_min event_max : Z) : bool :=
  negb ((user_max <? event_min) || (user_min >? event_max)).

(* ================================================================== *)
(** * Filter stage chain *)

(** The parse of the caller's age string at the head of [filter_by_age];
    [None] is the [ValueError] branch. *)
Definition parse_age_input (age_input : string) : option (Z * Z) :=
  if PyStr.contains "-" age_input then
    match map PyStr.int (PyStr.split "-" age_input) with
    | [Some user_min; Some user_max] => Some (user_min, user_max)
    | _ => None
    end
  else
    match PyStr.int age_input with
    | Some a => Some (a, a)
    | None => None
    end.

(** The keyword fallback at the end of the loop body of [filter_by_age].
    [and] binds tighter than [or] in the second test. *)
Definition keyword_fallback (user_min user_max : Z) (audience : string) : bool :=
  if PyStr.contains "toddler" audience && (user_max >=? 1) && (user_min <=? 3)
  then true
  else if PyStr.contains "baby" audience
          || (PyStr.contains "infant" audience
              && (user_max >=? 0) && (user_min <=? 2))
  then true
  else if PyStr.contains "preschool" audience
          && (user_max >=? 3) && (user_min <=? 5)
  then true
  else false.

(** One turn of the loop of [filter_by_age]: is the event appended? *)
Definition age_keep (user_min user_max : Z) (e : event) : bool :=
  let audience := PyStr.lower (default "" (audience e)) in
  let description := default "" (description e) in
  if PyStr.contains "all ages" audience then true
  else
    match extract_age_range_from_text description with
    | Some (event_min, event_max) =>
        check_age_overlap user_min user_max event_min event_max
    | None =>
        match search_pair audience_pattern audience with
        | Some (event_min, event_max) =>
            if check_age_overlap user_min user_max event_min event_max
            then true
            else keyword_fallback user_min user_max audience
        | None => keyword_fallback user_min user_max audience
        end
    end.

Definition filter_by_age (h : heap) (events : list ref) (age_input : string)
  : list ref :=
  match parse_age_input age_input with
  | None => events
  | Some (user_min, user_max) =>
      List.filter (fun r => age_keep user_min user_max (deref h r)) events
  end.

Definition filter_by_days (h : heap) (events : list ref)
    (selected_days : list string) : list ref :=
  match selected_days with
  | [] => events
  | _ =>
      let selected_days_lower := map PyStr.lower selected_days in
      List.filter
        (fun r => PyStr.mem (PyStr.lower (default "" (day_of_week (deref h r))))
                            selected_days_lower)
        events
  end.

Definition upcoming (today : Z) (e : event) : bool :=
  match PyTime.strptime_date (default "" (date e)) with
  | Some event_date => event_date >=? today
  | None => true
  end.

Definition filter_upcoming_events (today : Z) (h : heap) (events : list ref)
  : list ref :=
  List.filter (fun r => upcoming today (deref h r)) events.

Definition in_window (today end_date : Z) (e : event) : bool :=
  match PyTime.strptime_date (default "" (date e)) with
  | Some event_date => (today <=? event_date) && (event_date <=? end_date)
  | None => true
  end.

Definition filter_by_date_range (today : Z) (h : heap) (events : list ref)
    (date_range : string) : list ref :=
  let window end_date :=
    List.filter (fun r => in_window today end_date (deref h r)) events in
  if String.eqb date_range "week" then window (today + 7)
  else if String.eqb date_range "2weeks" then window (today + 14)
  else if String.eqb date_range "month" then window (today + 30)
  else events.

Definition time_keep (times : list string) (e : event) : bool :=
  let start_time := default "00:00:00" (start_time e) in
  match PyStr.int (hd "" (PyStr.split ":" start_time)) with
  | Some hour =>
      let is_morning := hour <? 12 in
      let is_afternoon := (12 <=? hour) && (hour <? 17) in
      let is_evening := hour >=? 17 in
      (PyStr.mem "morning" times && is_morning)
      || (PyStr.mem "afternoon" times && is_afternoon)
      || (PyStr.mem "evening" times && is_evening)
  | None => true
  end.

Definition filter_by_time_of_day (h : heap) (events : list ref)
    (times : list string) : list ref :=
  match times with
  | [] => events
  | _ => List.filter (fun r => time_keep times (deref h r)) events
  end.

Definition filter_by_venue_type (h : heap) (events : list ref)
    (venue : string) : list ref :=
  if String.eqb venue "all" then events
  else
    List.filter
      (fun r => String.eqb (default "library" (venue_type (deref h r))) venue)
      events.

(** [type_keywords.get(event_type, [])] *)
Definition type_keywords (event_type : string) : list string :=
  if String.eqb event_type "storytime"
  then ["Storytime Events"; "storytime"; "story time"]
  else if String.eqb event_type "arts" then ["Arts and Crafts"; "arts"; "crafts"]
  else if String.eqb event_type "steam" then ["S.T.E.A.M"; "STEM"; "steam"; "stem"]
  else if String.eqb event_type "music" then ["Music and Dance"; "music"; "dance"]
  else [].

Definition type_keep (keywords : list string) (e : event) : bool :=
  let categories := default [] (categories e) in
  let title := PyStr.lower (default "" (title e)) in
  let description := PyStr.lower (default "" (description e)) in
  existsb
    (fun keyword =>
       let keyword_lower := PyStr.lower keyword in
       existsb (fun cat => PyStr.contains keyword_lower (PyStr.lower cat))
               categories
       || PyStr.contains keyword_lower title
       || PyStr.contains keyword_lower description)
    keywords.

Definition filter_by_event_type (h : heap) (events : list ref)
    (event_type : string) : list ref :=
  if String.eqb event_type "all" then events
  else
    match type_keywords event_type with
    | [] => events
    | keywords => List.filter (fun r => type_keep keywords (deref h r)) events
    end.

(* ================================================================== *)
(** * Temporal annotator *)

(** The f-string [f"{display_hour}:{minute:02d} {period}"] built from the
    parsed end time. *)
Definition format_end_time (end_dt : PyTime.time) : string :=
  let hour := PyTime.hour end_dt in
  let minute := PyTime.minute end_dt in
  let period := if hour <? 12 then "AM" else "PM" in
  let display_hour := if hour <=? 12 then hour else hour - 12 in
  let display_hour := if display_hour =? 0 then 12 else display_hour in
  PyStr.str_of_Z display_hour ++ ":" ++ PyStr.str_of_Z_02 minute
  ++ " " ++ period.

(** The defaults written when there is no end time or a parse fails. *)
Definition no_duration (e : event) : event :=
  with_duration e (PyTime.float_of_Z 0) false None.

(** The body of the loop of [add_duration_info]: the dictionary after the
    assignments. *)
Definition annotate (e : event) : event :=
  let start_time := default "00:00:00" (start_time e) in
  let end_time := default "" (end_time e) in
  if String.eqb end_time "" then no_duration e
  else
    match PyTime.strptime_time start_time, PyTime.strptime_time end_time with
    | Some start_dt, Some end_dt =>
        let duration_hours :=
          PyTime.hours_of_seconds
            (PyTime.seconds_of end_dt - PyTime.seconds_of start_dt) in
        with_duration e duration_hours
                      (PrimFloat.leb (PyTime.float_of_Z 6) duration_hours)
                      (Some (format_end_time end_dt))
    | _, _ => no_duration e
    end.

(** [add_duration_info] assigns into each dictionary of the list, in order:
    a dictionary of the store is updated in the store, a request-local one in
    place.  It returns the list it was given. *)
Fixpoint add_duration_info (h : heap) (events : list ref) : heap * list ref :=
  match events with
  | [] => (h, [])
  | Shared l :: rest =>
      let '(h', rest') :=
        add_duration_info (<[l := annotate (h !!! l)]> h) rest in
      (h', Shared l :: rest')
  | Local e :: rest =>
      let '(h', rest') := add_duration_info h rest in
      (h', Local (annotate e) :: rest')
  end.

(* ================================================================== *)
(** * Sorter *)

(** [sorted(xs, key=key)]: the stable ascending sort.  Python's result is
    determined by this contract; it is computed here by insertion, each
    element going before the first one with a key at least as large among
    those that followed it. *)
Section Sorted.
Context {A : Type} (key : A -> Z).

Fixpoint insert_sorted (x : A) (l : list A) : list A :=
  match l with
  | [] => [x]
  | y :: l' =>
      if key x <=? key y then x :: y :: l' else y :: insert_sorted x l'
  end.

Definition sorted (l : list A) : list A := fold_right insert_sorted [] l.
End Sorted.

(** The f-string [f"{date_str} {time_str}"] of [get_sort_key]. *)
Definition date_time_text (e : event) : string :=
  let date_str := default "9999-12-31" (date e) in
  let time_str := default "00:00:00" (start_time e) in
  date_str ++ " " ++ time_str.

Definition get_sort_key (e : event) : Z :=
  match PyTime.strptime_datetime (date_time_text e) with
  | Some t => t
  | None => PyTime.datetime_max
  end.

Definition sort_by_date (h : heap) (events : list ref) : list ref :=
  sorted (fun r => get_sort_key (deref h r)) events.

(* ================================================================== *)
(** * Query orchestrator *)

(** The request body after the defaults of [data.get]. *)
Record query := mk_query {
  q_city : string;
  q_kids_ages : string;
  q_days : list string;
  q_date_range : string;
  q_time_of_day : list string;
  q_venue_type : string;
  q_event_type : string
}.

(** The JSON response: the dictionaries of the final list as they are when
    it is serialised, their number, and the echoed preferences. *)
Record response := mk_response {
  results : list event;
  count : nat;
  user_preferences : query
}.

(** [[event for event in bookstore_events
      if event.get('city', '').lower() == c]] *)
Definition bookstore_in (h : heap) (g : snapshot) (c : string) : list ref :=
  List.filter
    (fun r => String.eqb (PyStr.lower (default "" (city (deref h r)))) c)
    (map Shared (bookstore_events g)).

(** The working list [search] starts from. *)
Definition select_events (h : heap) (g : snapshot) (city : string) : list ref :=
  if String.eqb city "jersey_city" then
    (map Shared (jersey_city_events g) ++ bookstore_in h g "jersey city")%list
  else if String.eqb city "hoboken" then
    (map Shared (hoboken_events g) ++ bookstore_in h g "hoboken")%list
  else
    (map (fun l => Local (with_city (h !!! l) "Jersey City"))
         (jersey_city_events g)
     ++ map (fun l => Local (with_city (h !!! l) "Hoboken")) (hoboken_events g)
     ++ map Shared (bookstore_events g))%list.

(** The guarded stages of [search], one definition per [if]. *)
Definition date_range_stage (today : Z) (h : heap) (q : query)
    (events : list ref) : list ref :=
  if negb (String.eqb (q_date_range q) "all")
  then filter_by_date_range today h events (q_date_range q) else events.

Definition age_stage (h : heap) (q : query) (events : list ref) : list ref :=
  if negb (String.eqb (q_kids_ages q) "")
  then filter_by_age h events (q_kids_ages q) else events.

Definition days_stage (h : heap) (q : query) (events : list ref) : list ref :=
  match q_days q with
  | [] => events
  | _ => filter_by_days h events (q_days q)
  end.

Definition time_stage (h : heap) (q : query) (events : list ref) : list ref :=
  match q_time_of_day q with
  | [] => events
  | _ => filter_by_time_of_day h events (q_time_of_day q)
  end.

Definition venue_stage (h : heap) (q : query) (events : list ref) : list ref :=
  if negb (String.eqb (q_venue_type q) "all")
  then filter_by_venue_type h events (q_venue_type q) else events.

Definition type_stage (h : heap) (q : query) (events : list ref) : list ref :=
  if negb (String.eqb (q_event_type q) "all")
  then filter_by_event_type h events (q_event_type q) else events.

(** The filter stages of [search], in its order. *)
Definition filter_stages (today : Z) (h : heap) (q : query)
    (events : list ref) : list ref :=
  let events := filter_upcoming_events today h events in
  let events := date_range_stage today h q events in
  let events := age_stage h q events in
  let events := days_stage h q events in
  let events := time_stage h q events in
  let events := venue_stage h q events in
  type_stage h q events.

(** [search]: the response and the store it leaves behind. *)
Definition search (today : Z) (g : snapshot) (q : query) (h : heap)
  : response * heap :=
  let events := select_events h g (q_city q) in
  let events := filter_stages today h q events in
  let '(h', events) := add_duration_info h events in
  let events := sort_by_date h' events in
  (mk_response (map (deref h') events) (length events) q, h').

(* ================================================================== *)
(** * Vocabulary of the properties *)

(** The order of the sorter: keys ascend. *)
Definition key_le {A : Type} (key : A -> Z) (x y : A) : Prop := key x <= key y.

(** A function of an event that reads none of the annotator's attributes. *)
Definition source_only {B : Type} (P : event -> B) : Prop :=
  forall e, P e = P (no_duration e).

(** What the loop of [add_duration_info] leaves behind. *)
Definition annotate_ref (r : ref) : ref :=
  match r with
  | Shared l => Shared l
  | Local e => Local (annotate e)
  end.

(** A stage selects: it keeps the elements whose dictionary passes a test
    that reads none of the annotator's attributes. *)
Definition selects (F : heap -> list ref -> list ref) : Prop :=
  exists P : event -> bool,
    source_only P /\ forall h l, F h l = List.filter (fun r => P (deref h r)) l.

(** The stages that follow the date window. *)
Definition later_stages (h : heap) (q : query) (events : list ref) : list ref :=
  type_stage h q
    (venue_stage h q (time_stage h q (days_stage h q (age_stage h q events)))).

(** The same query with another date window. *)
Definition with_date_range (q : query) (date_range : string) : query :=
  mk_query (q_city q) (q_kids_ages q) (q_days q) date_range (q_time_of_day q)
           (q_venue_type q) (q_event_type q).

(** Two dictionaries agree on every attribute but the three written by the
    annotator. *)
Definition same_source (e e' : event) : Prop := no_duration e = no_duration e'.

(** Two working lists, read in two stores, hold pairwise dictionaries that
    agree on every attribute but the annotator's. *)
Definition related (h h' : heap) (l l' : list ref) : Prop :=
  Forall2 (fun r r' => same_source (deref h r) (deref h' r')) l l'.



(** [sort_by_date] puts [r1] strictly after [r2]. *)
Definition sorts_after (h : heap) (events : list ref) (r1 r2 : ref) : Prop :=
  forall i j : nat,
    sort_by_date h events !! i = Some r1 ->
    sort_by_date h events !! j = Some r2 -> (j < i)%nat.

(** The key of 9999-12-31 00:00:00. *)
Definition last_day : Z := PyTime.micros (PyTime.ymd2ord 9999 12 31) 0 0.

(** Every character of [s] passes [p]. *)
Fixpoint all_of (p : ascii -> bool) (s : string) : bool :=
  match s with
  | EmptyString => true
  | String c s' => p c && all_of p s'
  end.

(** The character [c] occurs in [s]. *)
Fixpoint has (c : ascii) (s : string) : bool :=
  match s with
  | EmptyString => false
  | String c' s' => Ascii.eqb c c' || has c s'
  end.

(** A non-empty run of decimal digits. *)
Definition digit_run (s : string) : Prop :=
  all_of PyStr.is_digit s = true /\ s <> "".

(** [s'] is what is left of [s] after some prefix. *)
Definition is_suffix (s' s : string) : Prop := exists pre, s = pre ++ s'.

(** [shape r n]: every group of [r] is a run of one or more digits, and
    every way through [r] closes exactly [n] groups. *)
Inductive shape : Re.regex -> nat -> Prop :=
| shape_eps : shape Re.Eps 0
| shape_chr c : shape (Re.Chr c) 0
| shape_cls p : shape (Re.Cls p) 0
| shape_seq r1 r2 n1 n2 n :
    shape r1 n1 -> shape r2 n2 -> n = (n1 + n2)%nat -> shape (Re.Seq r1 r2) n
| shape_alt r1 r2 n : shape r1 n -> shape r2 n -> shape (Re.Alt r1 r2) n
| shape_opt r : shape r 0 -> shape (Re.Opt r) 0
| shape_rep min p : shape (Re.Rep min p) 0
| shape_grp min : shape (Re.Grp (Re.Rep (S min) PyStr.is_digit)) 1.

(** The request as one test on a record: the conjunction of the seven
    stage tests, each true when its parameter asks for nothing. *)
Definition request_test (today : Z) (q : query) (e : event) : bool :=
  upcoming today e
  && (if String.eqb (q_date_range q) "week" then in_window today (today + 7) e
      else if String.eqb (q_date_range q) "2weeks"
      then in_window today (today + 14) e
      else if String.eqb (q_date_range q) "month"
      then in_window today (today + 30) e
      else true)
  && match parse_age_input (q_kids_ages q) with
     | Some (user_min, user_max) => age_keep user_min user_max e
     | None => true
     end
  && match q_days q with
     | [] => true
     | _ => PyStr.mem (PyStr.lower (default "" (day_of_week e)))
                      (map PyStr.lower (q_days q))
     end
  && match q_time_of_day q with
     | [] => true
     | _ => time_keep (q_time_of_day q) e
     end
  && (String.eqb (q_venue_type q) "all"
      || String.eqb (default "library" (venue_type e)) (q_venue_type q))
  && match type_keywords (q_event_type q) with
     | [] => true
     | keywords => type_keep keywords e
     end.


(** Sample records and requests. *)
Module Sample.

Definition record (audience description : option string) : event :=
  mk_event (Some "Story Time") (Some "2099-01-01") None None None
           audience description None None None None None None [].

Definition timed (date start_time end_time : option string) : event :=
  mk_event (Some "Story Time") date start_time end_time None None None None
           None None None None None [].

Definition baby : event := record (Some "Baby Storytime") None.
Definition toddlers_1_2 : event := record (Some "Toddlers (1-2)") None.
Definition undated : event := timed None (Some "10:00:00") None.
Definition year_end : event := timed (Some "9999-12-31") (Some "23:00:00") None.
Definition bad_date : event := timed (Some "tomorrow") (Some "10:00:00") None.
Definition morning : event :=
  timed (Some "2099-01-01") (Some "09:30:00") (Some "10:15:00").
Definition open_ended : event := timed (Some "2099-01-01") (Some "09:30:00") None.
Definition soon : event :=
  timed (Some "2026-11-07") (Some "11:00:00") (Some "18:30:00").
Definition at_noon : event := timed (Some "2099-01-01") (Some "noon") None.

(** One Jersey City record in the store, and a request for that city. *)
Definition store : heap := <[0%nat := morning]> ∅.
Definition collections : snapshot := mk_snapshot [0%nat] [] [].
Definition jersey_city_query : query :=
  mk_query "jersey_city" "" [] "all" [] "all" "all".

(** 2026-11-05 *)
Definition today : Z := 739925.

(** A bookstore record two days ahead, and a request for both cities. *)
Definition store_soon : heap := <[0%nat := soon]> ∅.
Definition bookstore_only : snapshot := mk_snapshot [] [] [0%nat].
Definition both_query : query := mk_query "both" "" [] "all" [] "all" "all".

End Sample.

(* ================================================================== *)
(** * Facts about the stable sort *)

Section SortedFacts.
Context {A : Type} (key : A -> Z).

Lemma insert_sorted_perm (x : A) (l : list A) :
  Permutation (insert_sorted key x l) (x :: l).
Proof.
  induction l as [|y l IH]; simpl; [reflexivity|].
  destruct (key x <=? key y); [reflexivity|].
  rewrite IH. apply perm_swap.
Qed.

Lemma sorted_perm (l : list A) : Permutation (sorted key l) l.
Proof.
  induction l as [|x l IH]; simpl; [constructor|].
  rewrite insert_sorted_perm. now constructor.
Qed.

Lemma insert_sorted_In (x y : A) (l : list A) :
  In y (insert_sorted key x l) <-> y = x \/ In y l.
Proof.
  split; intros H.
  - apply (Permutation_in _ (insert_sorted_perm x l)) in H.
    destruct H as [->|H]; auto.
  - apply (Permutation_in _ (Permutation_sym (insert_sorted_perm x l))).
    destruct H as [->|H]; [now left|now right].
Qed.

Lemma sorted_In (y : A) (l : list A) : In y (sorted key l) <-> In y l.
Proof.
  split; apply Permutation_in; [|symmetry]; apply sorted_perm.
Qed.

Lemma insert_sorted_ordered (x : A) (l : list A) :
  StronglySorted (key_le key) l -> StronglySorted (key_le key) (insert_sorted key x l).
Proof.
  induction 1 as [|y l Hl IH Hy]; simpl.
  - repeat constructor.
  - destruct (key x <=? key y) eqn:E.
    + apply Z.leb_le in E. constructor; [now constructor|].
      constructor; [exact E|].
      apply List.Forall_forall. intros z Hz.
      rewrite List.Forall_forall in Hy. specialize (Hy z Hz).
      unfold key_le in *. lia.
    + apply Z.leb_gt in E. constructor; [exact IH|].
      apply List.Forall_forall. intros z Hz. apply insert_sorted_In in Hz.
      destruct Hz as [->|Hz]; [unfold key_le; lia|].
      rewrite List.Forall_forall in Hy. now apply Hy.
Qed.

Lemma sorted_ordered (l : list A) : StronglySorted (key_le key) (sorted key l).
Proof.
  induction l as [|x l IH]; simpl; [constructor|].
  now apply insert_sorted_ordered.
Qed.

(** Elements with one given key keep their order. *)
Lemma insert_sorted_stable (k : Z) (x : A) (l : list A) :
  List.filter (fun y => key y =? k) (insert_sorted key x l)
  = List.filter (fun y => key y =? k) (x :: l).
Proof.
  induction l as [|y l IH]; [reflexivity|].
  cbn [insert_sorted]. destruct (key x <=? key y) eqn:E; [reflexivity|].
  apply Z.leb_gt in E. cbn [List.filter] in *. rewrite IH.
  destruct (key y =? k) eqn:Ey, (key x =? k) eqn:Ex; try reflexivity.
  apply Z.eqb_eq in Ey, Ex. lia.
Qed.

Lemma sorted_stable (k : Z) (l : list A) :
  List.filter (fun y => key y =? k) (sorted key l)
  = List.filter (fun y => key y =? k) l.
Proof.
  induction l as [|x l IH]; [reflexivity|].
  cbn [sorted fold_right]. rewrite insert_sorted_stable.
  cbn [List.filter]. fold (sorted key l). now rewrite IH.
Qed.

(** In a sorted list, positions follow keys. *)
Lemma ordered_lookup (l : list A) (i j : nat) (a b : A) :
  StronglySorted (key_le key) l ->
  l !! i = Some a -> l !! j = Some b -> (i < j)%nat -> key a <= key b.
Proof.
  intros Hs. revert i j. induction Hs as [|y l Hl IH Hy]; intros i j Hi Hj Hij.
  - discriminate.
  - destruct i as [|i], j as [|j]; try lia; simpl in Hi, Hj.
    + injection Hi as <-. rewrite List.Forall_forall in Hy. apply Hy.
      apply list_elem_of_In. eapply list_elem_of_lookup_2. exact Hj.
    + apply (IH i j); auto. lia.
Qed.

Lemma sorted_strictly_after (l : list A) (i j : nat) (a b : A) :
  sorted key l !! i = Some a -> sorted key l !! j = Some b ->
  key b < key a -> (j < i)%nat.
Proof.
  intros Hi Hj Hlt.
  destruct (Nat.lt_trichotomy i j) as [Hij|[->|Hij]]; [| |exact Hij].
  - pose proof (ordered_lookup _ _ _ _ _ (sorted_ordered l) Hi Hj Hij). lia.
  - rewrite Hi in Hj. injection Hj as ->. lia.
Qed.
End SortedFacts.

(** Sorting commutes with a map the key is read through. *)
Lemma sorted_map {A B : Type} (f : A -> B) (key : B -> Z) (l : list A) :
  map f (sorted (fun x => key (f x)) l) = sorted key (map f l).
Proof.
  induction l as [|x l IH]; [reflexivity|].
  cbn [sorted fold_right map]. fold (sorted key (map f l)).
  fold (sorted (fun x => key (f x)) l). rewrite <- IH.
  generalize (sorted (fun x => key (f x)) l). intros l'.
  induction l' as [|y l' IH']; [reflexivity|].
  cbn [insert_sorted map]. destruct (key (f x) <=? key (f y)); [reflexivity|].
  cbn [map]. now rewrite IH'.
Qed.

(* ================================================================== *)
(** * The annotator and the attributes the stages read *)

Lemma source_only_respects {B : Type} (P : event -> B) (e e' : event) :
  source_only P -> same_source e e' -> P e = P e'.
Proof.
  intros HP He. rewrite (HP e), (HP e'). unfold same_source in He. now rewrite He.
Qed.

Lemma upcoming_source today : source_only (upcoming today).
Proof. intros e. reflexivity. Qed.

Lemma in_window_source today end_date : source_only (in_window today end_date).
Proof. intros e. reflexivity. Qed.

Lemma age_keep_source user_min user_max : source_only (age_keep user_min user_max).
Proof. intros e. reflexivity. Qed.

Lemma time_keep_source times : source_only (time_keep times).
Proof. intros e. reflexivity. Qed.

Lemma type_keep_source keywords : source_only (type_keep keywords).
Proof. intros e. reflexivity. Qed.

Lemma get_sort_key_source : source_only get_sort_key.
Proof. intros e. reflexivity. Qed.

Lemma day_of_week_source : source_only day_of_week.
Proof. intros e. reflexivity. Qed.

Lemma venue_type_source : source_only venue_type.
Proof. intros e. reflexivity. Qed.

Lemma city_source : source_only city.
Proof. intros e. reflexivity. Qed.

Lemma same_source_refl e : same_source e e.
Proof. reflexivity. Qed.

Lemma same_source_sym e e' : same_source e e' -> same_source e' e.
Proof. unfold same_source. congruence. Qed.

Lemma same_source_trans e1 e2 e3 :
  same_source e1 e2 -> same_source e2 e3 -> same_source e1 e3.
Proof. unfold same_source. congruence. Qed.

Lemma with_duration_source e d a f : same_source (with_duration e d a f) e.
Proof. reflexivity. Qed.

Lemma with_duration_same_source e e' d a f :
  same_source e e' -> with_duration e d a f = with_duration e' d a f.
Proof.
  unfold same_source, no_duration, with_duration. intros H.
  injection H as -> -> -> -> -> -> -> -> -> -> ->. reflexivity.
Qed.

Lemma annotate_source e : same_source (annotate e) e.
Proof.
  unfold annotate.
  destruct (String.eqb _ _); [reflexivity|].
  destruct (PyTime.strptime_time _); [|reflexivity].
  destruct (PyTime.strptime_time _); reflexivity.
Qed.

Lemma annotate_same_source e e' : same_source e e' -> annotate e = annotate e'.
Proof.
  intros H. unfold annotate, no_duration.
  rewrite (source_only_respects start_time e e' (fun _ => eq_refl) H).
  rewrite (source_only_respects end_time e e' (fun _ => eq_refl) H).
  destruct (String.eqb _ _); [now apply with_duration_same_source|].
  destruct (PyTime.strptime_time _); [|now apply with_duration_same_source].
  destruct (PyTime.strptime_time _); now apply with_duration_same_source.
Qed.

Lemma annotate_idem e : annotate (annotate e) = annotate e.
Proof. apply annotate_same_source, annotate_source. Qed.

Lemma with_city_same_source e e' c :
  same_source e e' -> same_source (with_city e c) (with_city e' c).
Proof.
  unfold same_source, no_duration, with_duration, with_city. cbn.
  intros H. injection H as ? ? ? ? ? ? ? ? ? ? ?. congruence.
Qed.


Lemma add_duration_info_list (h : heap) (events : list ref) :
  snd (add_duration_info h events) = map annotate_ref events.
Proof.
  revert h. induction events as [|[l|e] rest IH]; intros h; [reflexivity| |].
  - cbn [add_duration_info].
    specialize (IH (<[l := annotate (h !!! l)]> h)).
    destruct (add_duration_info _ rest) as [h' rest']. cbn in *. now rewrite IH.
  - cbn [add_duration_info]. specialize (IH h).
    destruct (add_duration_info h rest) as [h' rest']. cbn in *. now rewrite IH.
Qed.

(** Every dictionary of the store is afterwards what it was or its
    annotation, and it is its annotation when the list refers to it. *)
Lemma add_duration_info_heap (h : heap) (events : list ref) (l : loc) :
  let h' := fst (add_duration_info h events) in
  (h' !!! l = h !!! l \/ h' !!! l = annotate (h !!! l))
  /\ (In (Shared l) events -> h' !!! l = annotate (h !!! l)).
Proof.
  revert h. induction events as [|[l0|e] rest IH]; intros h; cbn zeta.
  - split; [now left|intros []].
  - cbn [add_duration_info].
    specialize (IH (<[l0 := annotate (h !!! l0)]> h)). cbn zeta in IH.
    destruct (add_duration_info _ rest) as [h' rest']. cbn [fst] in *.
    destruct IH as [IH1 IH2].
    destruct (decide (l0 = l)) as [->|Hne].
    + rewrite lookup_total_insert_eq, annotate_idem in IH1, IH2.
      assert (h' !!! l = annotate (h !!! l)) by (destruct IH1; assumption).
      split; [now right|auto].
    + rewrite lookup_total_insert_ne in IH1, IH2 by assumption.
      split; [exact IH1|]. intros [Heq|Hin]; [congruence|auto].
  - cbn [add_duration_info]. specialize (IH h). cbn zeta in IH.
    destruct (add_duration_info h rest) as [h' rest']. cbn [fst] in *.
    destruct IH as [IH1 IH2]. split; [exact IH1|].
    intros [Heq|Hin]; [discriminate|auto].
Qed.

Lemma add_duration_info_unreferenced (h : heap) (events : list ref) (l : loc) :
  ~ In (Shared l) events -> fst (add_duration_info h events) !!! l = h !!! l.
Proof.
  revert h. induction events as [|[l0|e] rest IH]; intros h Hnot.
  - reflexivity.
  - cbn [add_duration_info].
    specialize (IH (<[l0 := annotate (h !!! l0)]> h)).
    destruct (add_duration_info _ rest) as [h' rest']. cbn [fst] in *.
    rewrite IH by (intros Hin; apply Hnot; now right).
    apply lookup_total_insert_ne. intros ->. apply Hnot. now left.
  - cbn [add_duration_info]. specialize (IH h).
    destruct (add_duration_info h rest) as [h' rest']. cbn [fst] in *.
    apply IH. intros Hin; apply Hnot; now right.
Qed.

(** The dictionaries of the list after the loop are the annotations of the
    dictionaries before it. *)
Lemma add_duration_info_values (h : heap) (events : list ref) :
  map (deref (fst (add_duration_info h events)))
      (snd (add_duration_info h events))
  = map (fun r => annotate (deref h r)) events.
Proof.
  rewrite add_duration_info_list, map_map.
  apply map_ext_in. intros [l|e] Hin; cbn; [|reflexivity].
  now apply add_duration_info_heap.
Qed.

(* ================================================================== *)
(** * Stages as selections *)

Lemma selects_filter (P : event -> bool) :
  source_only P ->
  selects (fun h l => List.filter (fun r => P (deref h r)) l).
Proof. intros HP. exists P. split; [exact HP|reflexivity]. Qed.

Lemma filter_true {A : Type} (l : list A) : List.filter (fun _ => true) l = l.
Proof. induction l as [|x l IH]; cbn; [reflexivity|now rewrite IH]. Qed.

Lemma selects_id : selects (fun _ l => l).
Proof.
  exists (fun _ => true). split; [intros e; reflexivity|].
  intros h l. now rewrite filter_true.
Qed.

Lemma filter_filter {A : Type} (P Q : A -> bool) (l : list A) :
  List.filter Q (List.filter P l) = List.filter (fun x => P x && Q x) l.
Proof.
  induction l as [|x l IH]; [reflexivity|]. cbn.
  destruct (P x); cbn; [destruct (Q x)|]; now rewrite IH.
Qed.

Lemma selects_compose F G :
  selects F -> selects G -> selects (fun h l => G h (F h l)).
Proof.
  intros (P & HP & HF) (Q & HQ & HG). exists (fun e => P e && Q e). split.
  - intros e. now rewrite (HP e), (HQ e).
  - intros h l. now rewrite HG, HF, filter_filter.
Qed.

Lemma selects_In F h l r :
  selects F -> In r (F h l) -> In r l.
Proof.
  intros (P & _ & HF). rewrite HF. intros H. now apply filter_In in H.
Qed.

Lemma selects_incl F h l1 l2 r :
  selects F -> (forall x, In x l1 -> In x l2) -> In r (F h l1) -> In r (F h l2).
Proof.
  intros (P & _ & HF) Hincl. rewrite !HF, !filter_In. intros [H1 H2]. auto.
Qed.

Create HintDb stages.

#[local] Hint Resolve selects_id selects_filter selects_compose
  upcoming_source in_window_source age_keep_source time_keep_source
  type_keep_source : stages.

Lemma selects_upcoming today : selects (filter_upcoming_events today).
Proof. unfold filter_upcoming_events. auto with stages. Qed.

Lemma selects_date_range today date_range :
  selects (fun h l => filter_by_date_range today h l date_range).
Proof.
  unfold filter_by_date_range.
  repeat (destruct (String.eqb date_range _); [auto with stages|]).
  auto with stages.
Qed.

Lemma selects_age age_input : selects (fun h l => filter_by_age h l age_input).
Proof.
  unfold filter_by_age. destruct (parse_age_input age_input) as [[a b]|];
    auto with stages.
Qed.

Lemma selects_days selected : selects (fun h l => filter_by_days h l selected).
Proof.
  unfold filter_by_days. destruct selected; [auto with stages|].
  apply selects_filter with
    (P := fun e => PyStr.mem (PyStr.lower (default "" (day_of_week e))) _).
  intros e. reflexivity.
Qed.

Lemma selects_time times : selects (fun h l => filter_by_time_of_day h l times).
Proof. unfold filter_by_time_of_day. destruct times; auto with stages. Qed.

Lemma selects_venue venue : selects (fun h l => filter_by_venue_type h l venue).
Proof.
  unfold filter_by_venue_type. destruct (String.eqb venue "all");
    [auto with stages|].
  apply selects_filter with
    (P := fun e => String.eqb (default "library" (venue_type e)) venue).
  intros e. reflexivity.
Qed.

Lemma selects_event_type event_type :
  selects (fun h l => filter_by_event_type h l event_type).
Proof.
  unfold filter_by_event_type. destruct (String.eqb event_type "all");
    [auto with stages|].
  destruct (type_keywords event_type); auto with stages.
Qed.

Lemma selects_date_range_stage today q : selects (fun h => date_range_stage today h q).
Proof.
  unfold date_range_stage. destruct (negb _);
    [apply selects_date_range|apply selects_id].
Qed.

Lemma selects_age_stage q : selects (fun h => age_stage h q).
Proof.
  unfold age_stage. destruct (negb _); [apply selects_age|apply selects_id].
Qed.

Lemma selects_days_stage q : selects (fun h => days_stage h q).
Proof.
  unfold days_stage. destruct (q_days q); [apply selects_id|apply selects_days].
Qed.

Lemma selects_time_stage q : selects (fun h => time_stage h q).
Proof.
  unfold time_stage. destruct (q_time_of_day q);
    [apply selects_id|apply selects_time].
Qed.

Lemma selects_venue_stage q : selects (fun h => venue_stage h q).
Proof.
  unfold venue_stage. destruct (negb _); [apply selects_venue|apply selects_id].
Qed.

Lemma selects_type_stage q : selects (fun h => type_stage h q).
Proof.
  unfold type_stage. destruct (negb _);
    [apply selects_event_type|apply selects_id].
Qed.

Lemma selects_later_stages q : selects (fun h => later_stages h q).
Proof.
  unfold later_stages.
  apply (selects_compose _ (fun h => type_stage h q)); [|apply selects_type_stage].
  apply (selects_compose _ (fun h => venue_stage h q)); [|apply selects_venue_stage].
  apply (selects_compose _ (fun h => time_stage h q)); [|apply selects_time_stage].
  apply (selects_compose _ (fun h => days_stage h q)); [|apply selects_days_stage].
  apply selects_age_stage.
Qed.

Lemma filter_stages_split today h q events :
  filter_stages today h q events
  = later_stages h q
      (date_range_stage today h q (filter_upcoming_events today h events)).
Proof. reflexivity. Qed.

Lemma selects_filter_stages today q : selects (fun h => filter_stages today h q).
Proof.
  apply (selects_compose (fun h l => date_range_stage today h q
                                       (filter_upcoming_events today h l))
                         (fun h => later_stages h q));
    [|apply selects_later_stages].
  apply (selects_compose (filter_upcoming_events today)
                         (fun h => date_range_stage today h q));
    [apply selects_upcoming|apply selects_date_range_stage].
Qed.

(* ================================================================== *)
(** * The age stage *)

Lemma check_age_overlap_spec (user_min user_max event_min event_max : Z) :
  check_age_overlap user_min user_max event_min event_max = true
  <-> ~ (user_max < event_min \/ user_min > event_max).
Proof.
  unfold check_age_overlap.
  rewrite negb_true_iff, orb_false_iff, Z.ltb_ge, Z.gtb_ltb, Z.ltb_ge. lia.
Qed.



(** With "baby" in the audience the fallback keeps the event whatever the
    caller's interval. *)
Lemma keyword_fallback_baby user_min user_max audience :
  PyStr.contains "baby" audience = true ->
  keyword_fallback user_min user_max audience = true.
Proof.
  intros Hb. unfold keyword_fallback. rewrite Hb. cbn.
  now destruct (PyStr.contains "toddler" audience && _ && _).
Qed.





(** C2 (divergence): "Baby Storytime" reaches the keyword fallback and is
    kept for the caller [5, 8], which does not overlap [0, 2]. *)
Lemma baby_kept_outside_interval :
  PyStr.contains "all ages"
    (PyStr.lower (default "" (audience Sample.baby))) = false
  /\ extract_age_range_from_text (default "" (description Sample.baby)) = None
  /\ search_pair audience_pattern
       (PyStr.lower (default "" (audience Sample.baby))) = None
  /\ PyStr.contains "baby"
       (PyStr.lower (default "" (audience Sample.baby))) = true
  /\ parse_age_input "5-8" = Some (5, 8)
  /\ filter_by_age ∅ [Local Sample.baby] "5-8" = [Local Sample.baby]
  /\ ~ (8 >= 0 /\ 5 <= 2).
Proof.
  repeat (split; [reflexivity|]). lia.
Qed.

(** C3 (divergence): the audience "Toddlers (1-2)" holds the number pair
    [1, 2], which the caller [3, 3] does not overlap, and the event is kept
    all the same, by the toddler keyword. *)
Lemma audience_interval_falls_through :
  PyStr.contains "all ages"
    (PyStr.lower (default "" (audience Sample.toddlers_1_2))) = false
  /\ extract_age_range_from_text
       (default "" (description Sample.toddlers_1_2)) = None
  /\ search_pair audience_pattern
       (PyStr.lower (default "" (audience Sample.toddlers_1_2))) = Some (1, 2)
  /\ parse_age_input "3" = Some (3, 3)
  /\ check_age_overlap 3 3 1 2 = false
  /\ filter_by_age ∅ [Local Sample.toddlers_1_2] "3"
     = [Local Sample.toddlers_1_2].
Proof.
  repeat (split; [reflexivity|]). reflexivity.
Qed.



(* ================================================================== *)
(** * The temporal stages *)

Lemma filter_by_date_range_In today h events date_range r :
  In r (filter_by_date_range today h events date_range) ->
  In r events.
Proof.
  apply (selects_In (fun h l => filter_by_date_range today h l date_range)).
  apply selects_date_range.
Qed.

Lemma in_window_unparsable today end_date e :
  PyTime.strptime_date (default "" (date e)) = None ->
  in_window today end_date e = true.
Proof. intros H. unfold in_window. now rewrite H. Qed.

(** C5: the temporal-validity stage keeps a record exactly when its date
    parses to a day not before today or does not parse; and a record whose
    date is missing or does not parse survives the date-window stage for
    every window, named or not, and so for every request. *)
Theorem temporal_stages_fail_open
    (today : Z) (h : heap) (q : query) (events : list ref) (r : ref) :
  (In r (filter_upcoming_events today h events)
   <-> In r events
       /\ match PyTime.strptime_date (default "" (date (deref h r))) with
          | Some event_date => today <= event_date
          | None => True
          end)
  /\ (PyTime.strptime_date (default "" (date (deref h r))) = None ->
      In r events ->
      (forall date_range,
         In r (filter_by_date_range today h events date_range))
      /\ In r (date_range_stage today h q events)).
Proof.
  split.
  - unfold filter_upcoming_events. rewrite filter_In. unfold upcoming.
    destruct (PyTime.strptime_date _) as [d|].
    + rewrite Z.geb_le. reflexivity.
    + tauto.
  - intros Hnone Hin.
    assert (Hall : forall date_range,
               In r (filter_by_date_range today h events date_range)).
    { intros date_range. unfold filter_by_date_range.
      repeat (destruct (String.eqb date_range _);
              [apply filter_In; split;
               [exact Hin|now apply in_window_unparsable]|]).
      exact Hin. }
    split; [exact Hall|].
    unfold date_range_stage. destruct (negb _); [apply Hall|exact Hin].
Qed.

(* ================================================================== *)
(** * The whole request *)

(** The result list of [search], read off the store the request started
    from: select, filter, annotate each survivor, sort. *)
Lemma search_results today g q h :
  results (fst (search today g q h))
  = sorted get_sort_key
      (map (fun r => annotate (deref h r))
           (filter_stages today h q (select_events h g (q_city q)))).
Proof.
  unfold search.
  pose proof (add_duration_info_values h
                (filter_stages today h q (select_events h g (q_city q)))) as Hv.
  destruct (add_duration_info h _) as [h' events'] eqn:E. cbn [fst snd] in *.
  cbn [results]. unfold sort_by_date.
  rewrite (sorted_map (deref h') get_sort_key events'). now rewrite Hv.
Qed.

Lemma search_count today g q h :
  count (fst (search today g q h))
  = length (results (fst (search today g q h))).
Proof.
  unfold search. destruct (add_duration_info h _) as [h' events'].
  cbn. now rewrite length_map.
Qed.

Lemma search_preferences today g q h :
  user_preferences (fst (search today g q h)) = q.
Proof.
  unfold search. now destruct (add_duration_info h _) as [h' events'].
Qed.

Lemma search_heap today g q h :
  snd (search today g q h)
  = fst (add_duration_info h
           (filter_stages today h q (select_events h g (q_city q)))).
Proof.
  unfold search. now destruct (add_duration_info h _) as [h' events'].
Qed.

(** C9: with every other parameter fixed, each event returned for the
    window "week" is also returned for the window "all". *)
Theorem week_within_all
    (today : Z) (g : snapshot) (q : query) (h : heap) (e : event) :
  In e (results (fst (search today g (with_date_range q "week") h))) ->
  In e (results (fst (search today g (with_date_range q "all") h))).
Proof.
  rewrite !search_results, !sorted_In, !in_map_iff.
  intros (r & Hr & Hin). exists r. split; [exact Hr|].
  rewrite filter_stages_split in *. cbn [with_date_range q_city] in *.
  change (later_stages h (with_date_range q "all"))
    with (later_stages h (with_date_range q "week")).
  revert Hin.
  apply (selects_incl (fun h => later_stages h (with_date_range q "week")));
    [apply selects_later_stages|].
  intros x Hx. unfold date_range_stage in *. cbn in Hx |- *.
  now apply filter_In in Hx.
Qed.

(** A record two days ahead is in both result lists. *)
Lemma week_within_all_witness :
  In (annotate Sample.soon)
     (results (fst (search Sample.today Sample.bookstore_only
                      (with_date_range Sample.both_query "all")
                      Sample.store_soon))).
Proof.
  apply week_within_all. vm_compute. now left.
Defined.

(* ================================================================== *)
(** * Requests in succession *)

Lemma related_filter (P : event -> bool) h h' l l' :
  source_only P -> related h h' l l' ->
  related h h' (List.filter (fun r => P (deref h r)) l)
               (List.filter (fun r => P (deref h' r)) l').
Proof.
  intros HP. induction 1 as [|r r' l l' Hr Hl IH]; [constructor|].
  cbn [List.filter]. rewrite (source_only_respects P _ _ HP Hr).
  destruct (P (deref h' r')); [constructor; assumption|exact IH].
Qed.

Lemma related_selects F h h' l l' :
  selects F -> related h h' l l' -> related h h' (F h l) (F h' l').
Proof.
  intros (P & HP & HF) Hl. rewrite !HF. now apply related_filter.
Qed.

Lemma related_app h h' l1 l1' l2 l2' :
  related h h' l1 l1' -> related h h' l2 l2' ->
  related h h' (l1 ++ l2) (l1' ++ l2').
Proof.
  induction 1; cbn; [auto|]. intros. constructor; auto. now apply IHForall2.
Qed.

Lemma related_shared h h' (ls : list loc) :
  (forall l, same_source (h !!! l) (h' !!! l)) ->
  related h h' (map Shared ls) (map Shared ls).
Proof.
  intros Hh. induction ls as [|l ls IH]; constructor; [apply Hh|exact IH].
Qed.

Lemma related_copies h h' (c : string) (ls : list loc) :
  (forall l, same_source (h !!! l) (h' !!! l)) ->
  related h h' (map (fun l => Local (with_city (h !!! l) c)) ls)
               (map (fun l => Local (with_city (h' !!! l) c)) ls).
Proof.
  intros Hh. induction ls as [|l ls IH]; constructor; [|exact IH].
  cbn. apply with_city_same_source, Hh.
Qed.

Lemma related_select_events h h' g c :
  (forall l, same_source (h !!! l) (h' !!! l)) ->
  related h h' (select_events h g c) (select_events h' g c).
Proof.
  intros Hh. unfold select_events, bookstore_in.
  assert (Hcity : forall c',
             source_only (fun e => String.eqb (PyStr.lower (default "" (city e))) c'))
    by (intros c' e; reflexivity).
  destruct (String.eqb c "jersey_city");
    [|destruct (String.eqb c "hoboken")].
  - apply related_app; [now apply related_shared|].
    apply (related_filter _ _ _ _ _ (Hcity "jersey city")).
    now apply related_shared.
  - apply related_app; [now apply related_shared|].
    apply (related_filter _ _ _ _ _ (Hcity "hoboken")).
    now apply related_shared.
  - apply related_app; [now apply related_copies|].
    apply related_app; [now apply related_copies|now apply related_shared].
Qed.

Lemma related_annotate h h' l l' :
  related h h' l l' ->
  map (fun r => annotate (deref h r)) l = map (fun r => annotate (deref h' r)) l'.
Proof.
  induction 1 as [|r r' l l' Hr Hl IH]; [reflexivity|].
  cbn [map]. now rewrite IH, (annotate_same_source _ _ Hr).
Qed.

(** A request leaves every dictionary of the store with the source
    attributes it had. *)
Lemma search_keeps_source today g q h l :
  same_source (h !!! l) (snd (search today g q h) !!! l).
Proof.
  rewrite search_heap.
  destruct (add_duration_info_heap h
              (filter_stages today h q (select_events h g (q_city q))) l)
    as [[H|H] _]; cbn zeta in H; rewrite H.
  - apply same_source_refl.
  - apply same_source_sym, annotate_source.
Qed.

Lemma response_eq (a b : response) :
  results a = results b -> count a = count b ->
  user_preferences a = user_preferences b -> a = b.
Proof. destruct a, b; cbn; congruence. Qed.

(** C10: the same request evaluated twice in succession on the same
    collections and the same day, the second time on the store the first one
    left behind, gives the same response: result list, count and echo. *)
Theorem search_twice_same
    (today : Z) (g : snapshot) (q : query) (h : heap) :
  fst (search today g q (snd (search today g q h)))
  = fst (search today g q h).
Proof.
  assert (Hres : results (fst (search today g q (snd (search today g q h))))
                 = results (fst (search today g q h))).
  { rewrite !search_results. f_equal. symmetry.
    apply related_annotate.
    apply (related_selects (fun h => filter_stages today h q));
      [apply selects_filter_stages|].
    apply related_select_events. intros l. apply search_keeps_source. }
  apply response_eq.
  - exact Hres.
  - now rewrite !search_count, Hres.
  - now rewrite !search_preferences.
Qed.

(** C6 (divergence): a request for Jersey City writes the three derived
    attributes into the dictionary held by [jersey_city_events]; the record
    of the collection is no longer what it was. *)
Lemma search_writes_shared_record :
  In 0%nat (jersey_city_events Sample.collections)
  /\ Sample.store !!! 0%nat = Sample.morning
  /\ snd (search Sample.today Sample.collections Sample.jersey_city_query
            Sample.store) !!! 0%nat
     = with_duration Sample.morning 0.75%float false (Some "10:15 AM")
  /\ snd (search Sample.today Sample.collections Sample.jersey_city_query
            Sample.store) !!! 0%nat
     <> Sample.store !!! 0%nat.
Proof.
  split; [now left|]. split; [reflexivity|]. split; [reflexivity|].
  vm_compute. discriminate.
Qed.

(* ================================================================== *)
(** * The annotator's postcondition *)






(* ================================================================== *)
(** * What a successful match tells *)

Lemma rep_greedy_inv {A} p min s (k : string -> option A) x :
  Re.rep_greedy p min s k = Some x -> exists s', k s' = Some x.
Proof.
  revert min. induction s as [|c s IH]; intros min; cbn.
  - destruct (min =? 0)%nat; [eauto|discriminate].
  - destruct (p c).
    + destruct (Re.rep_greedy p (Nat.pred min) s k) eqn:E.
      * intros [= ->]. eapply IH. exact E.
      * destruct (min =? 0)%nat; [eauto|discriminate].
    + destruct (min =? 0)%nat; [eauto|discriminate].
Qed.

(** A successful match ends in a call of the continuation, on captures that
    extend the ones it started with. *)
Lemma rmatch_inv {A} r s caps (k : string -> list string -> option A) x :
  Re.rmatch r s caps k = Some x ->
  exists s' caps', k s' (caps ++ caps')%list = Some x.
Proof.
  revert s caps k.
  induction r as [|c|p|r1 IH1 r2 IH2|r1 IH1 r2 IH2|r1 IH1|min p|r1 IH1];
    intros s caps k; cbn.
  - intros H. exists s, []. now rewrite app_nil_r.
  - destruct s as [|c' s]; [discriminate|].
    destruct (Ascii.eqb c c'); [|discriminate].
    intros H. exists s, []. now rewrite app_nil_r.
  - destruct s as [|c' s]; [discriminate|].
    destruct (p c'); [|discriminate].
    intros H. exists s, []. now rewrite app_nil_r.
  - intros H. apply IH1 in H as (s1 & c1 & H).
    apply IH2 in H as (s2 & c2 & H).
    exists s2, (c1 ++ c2)%list. now rewrite app_assoc.
  - destruct (Re.rmatch r1 s caps k) eqn:E.
    + intros [= ->]. now apply IH1 in E.
    + apply IH2.
  - destruct (Re.rmatch r1 s caps k) eqn:E.
    + intros [= ->]. now apply IH1 in E.
    + intros H. exists s, []. now rewrite app_nil_r.
  - intros H. apply rep_greedy_inv in H as (s' & H).
    exists s', []. now rewrite app_nil_r.
  - intros H. apply IH1 in H as (s1 & c1 & H).
    exists s1, (c1 ++ [Re.consumed s s1])%list. now rewrite app_assoc.
Qed.

Lemma consumed_cons c s s' :
  (String.length s' <= String.length s)%nat ->
  Re.consumed (String c s) s' = String c (Re.consumed s s').
Proof.
  intros Hle. unfold Re.consumed. cbn [String.length].
  replace (S (String.length s) - String.length s')%nat
    with (S (String.length s - String.length s'))%nat by lia.
  reflexivity.
Qed.

Lemma consumed_nil s : Re.consumed s s = "".
Proof.
  unfold Re.consumed. rewrite Nat.sub_diag. now destruct s.
Qed.

(* ================================================================== *)
(** * Calendar bounds *)

(** Replaces the tests on closed terms by their values. *)
Ltac eval_closed_tests :=
  repeat match goal with
  | |- context [if ?b then _ else _] =>
      lazymatch b with true => fail | false => fail | _ => idtac end;
      let v := eval vm_compute in b in
      first [constr_eq v true | constr_eq v false];
      change b with v; cbv iota
  end.

Ltac month_case y Hd :=
  cbn in Hd;
  match goal with
  | |- context [Z.to_nat ?e] =>
      let n := eval vm_compute in (Z.to_nat e) in change (Z.to_nat e) with n
  end;
  cbn [PyTime.days_before_month_aux]; unfold PyTime.days_in_month;
  eval_closed_tests; destruct (PyTime.is_leap y); lia.

Lemma day_of_year_bound y m d :
  PyTime.check_date y m d = true ->
  1 <= PyTime.days_before_month y m + d <= if PyTime.is_leap y then 366 else 365.
Proof.
  unfold PyTime.check_date. rewrite !andb_true_iff, !Z.leb_le.
  intros [[[[[_ _] Hm1] Hm12] Hd1] Hd].
  assert (Hm : m = 1 \/ m = 2 \/ m = 3 \/ m = 4 \/ m = 5 \/ m = 6 \/ m = 7
               \/ m = 8 \/ m = 9 \/ m = 10 \/ m = 11 \/ m = 12) by lia.
  unfold PyTime.days_before_month.
  repeat (destruct Hm as [->|Hm]; [month_case y Hd|]).
  subst m. month_case y Hd.
Qed.

Lemma ymd2ord_bound y m d :
  PyTime.check_date y m d = true ->
  1 <= PyTime.ymd2ord y m d <= PyTime.ymd2ord 9999 12 31.
Proof.
  intros H. pose proof (day_of_year_bound y m d H) as Hdoy.
  unfold PyTime.check_date in H. rewrite !andb_true_iff, !Z.leb_le in H.
  destruct H as [[[[[Hy1 Hy] _] _] _] _].
  change (PyTime.ymd2ord 9999 12 31) with 3652059.
  unfold PyTime.ymd2ord, PyTime.days_before_year. cbv zeta.
  destruct (Z.eq_dec y 9999) as [->|Hne].
  - change (PyTime.is_leap 9999) with false in Hdoy.
    Z.div_mod_to_equations. lia.
  - assert (Hmax : (if PyTime.is_leap y then 366 else 365) <= 366)
      by (destruct (PyTime.is_leap y); lia).
    Z.div_mod_to_equations. lia.
Qed.

Lemma check_time_seconds h m s :
  PyTime.check_time h m s = true ->
  0 <= PyTime.seconds_of (PyTime.mk_time h m s) <= 86399.
Proof.
  unfold PyTime.check_time, PyTime.seconds_of. cbn.
  rewrite !andb_true_iff, !Z.leb_le. lia.
Qed.

(** A parsed date-time is below [datetime.max]. *)
Lemma strptime_datetime_below_max s t :
  PyTime.strptime_datetime s = Some t -> 0 <= t < PyTime.datetime_max.
Proof.
  unfold PyTime.strptime_datetime.
  destruct (option_map _ _)
    as [[|[y|] [|[m|] [|[d|] [|[h|] [|[mi|] [|[sec|] [|? ?]]]]]]]|];
    try discriminate.
  destruct (PyTime.check_date y m d) eqn:Ed; [|discriminate].
  destruct (PyTime.check_time h mi sec) eqn:Et; [|discriminate].
  cbn [andb]. intros [= <-].
  pose proof (ymd2ord_bound _ _ _ Ed). pose proof (check_time_seconds _ _ _ Et).
  unfold PyTime.datetime_max, PyTime.micros.
  change (PyTime.ymd2ord 9999 12 31) with 3652059 in *. lia.
Qed.

(** The text "9999-12-31 <time>" parses, if at all, to a time of that day. *)
Lemma year_end_text t v :
  PyTime.strptime_datetime ("9999-12-31" ++ " " ++ t) = Some v -> last_day <= v.
Proof.
  unfold PyTime.strptime_datetime, Re.match_all, PyTime.fmt_datetime.
  cbv [String.append]. cbn [Re.seqs].
  with_strategy opaque [PyTime.fmt_time Re.consumed] cbn.
  eval_closed_tests.
  destruct (Re.rep_greedy _ _ _ _) as [[rest caps]|] eqn:E; [|discriminate].
  apply rep_greedy_inv in E as (s1 & E).
  apply rmatch_inv in E as (s2 & caps' & E). injection E as -> <-.
  repeat (rewrite ?consumed_nil;
          rewrite consumed_cons by (cbn [String.length]; lia)).
  rewrite ?consumed_nil.
  destruct rest; [|discriminate]. cbn [option_map].
  change (PyTime.ints ("9999" :: "12" :: "31" :: caps'))
    with (Some 9999 :: Some 12 :: Some 31 :: PyTime.ints caps').
  destruct (PyTime.ints caps') as [|[h|] [|[mi|] [|[sec|] [|? ?]]]];
    try discriminate.
  change (PyTime.check_date 9999 12 31) with true. cbn [andb].
  destruct (PyTime.check_time h mi sec) eqn:Et; [|discriminate].
  intros [= <-]. pose proof (check_time_seconds _ _ _ Et).
  unfold last_day, PyTime.micros. lia.
Qed.

Lemma undated_key_late e : date e = None -> last_day <= get_sort_key e.
Proof.
  intros Hd. unfold get_sort_key, date_time_text. rewrite Hd.
  cbn [default from_option id].
  destruct (PyTime.strptime_datetime _) eqn:E.
  - now apply year_end_text in E.
  - now vm_compute.
Qed.

Lemma unparsable_key e :
  PyTime.strptime_datetime (date_time_text e) = None ->
  get_sort_key e = PyTime.datetime_max.
Proof. intros H. unfold get_sort_key. now rewrite H. Qed.

Lemma parsable_key e :
  PyTime.strptime_datetime (date_time_text e) <> None ->
  get_sort_key e < PyTime.datetime_max.
Proof.
  intros H. unfold get_sort_key.
  destruct (PyTime.strptime_datetime _) eqn:E; [|now elim H].
  now apply strptime_datetime_below_max in E.
Qed.

(** C7 (as amended): the sorter returns a permutation of its input in
    ascending order of the key parsed from "<date> <start_time>" (a missing
    date read as 9999-12-31, a missing start time as 00:00:00); a record
    whose text does not parse is keyed with the maximal date-time and comes
    after every record whose text parses; a record with no date comes after
    every record keyed before 9999-12-31 00:00:00; and records with equal
    keys keep their input order. *)
Theorem sort_by_date_ordered_stable (h : heap) (events : list ref) :
  Permutation (sort_by_date h events) events
  /\ StronglySorted (key_le (fun r => get_sort_key (deref h r)))
                    (sort_by_date h events)
  /\ (forall r1 r2,
        PyTime.strptime_datetime (date_time_text (deref h r1)) = None ->
        PyTime.strptime_datetime (date_time_text (deref h r2)) <> None ->
        sorts_after h events r1 r2)
  /\ (forall r1 r2,
        date (deref h r1) = None ->
        get_sort_key (deref h r2) < last_day ->
        sorts_after h events r1 r2)
  /\ (forall k,
        List.filter (fun r => get_sort_key (deref h r) =? k)
                    (sort_by_date h events)
        = List.filter (fun r => get_sort_key (deref h r) =? k) events).
Proof.
  unfold sort_by_date, sorts_after.
  split; [apply sorted_perm|]. split; [apply sorted_ordered|].
  split; [|split].
  - intros r1 r2 H1 H2 i j Hi Hj.
    apply (sorted_strictly_after _ _ _ _ _ _ Hi Hj).
    rewrite (unparsable_key _ H1). now apply parsable_key.
  - intros r1 r2 H1 H2 i j Hi Hj.
    apply (sorted_strictly_after _ _ _ _ _ _ Hi Hj).
    pose proof (undated_key_late _ H1). lia.
  - intros k. apply sorted_stable.
Qed.

(** C7 as stated fails: a record with no date and start time 10:00:00 is
    keyed 9999-12-31 10:00:00, not the maximal date-time, and is sorted
    before the record dated 9999-12-31 at 23:00:00, whose text parses. *)
Lemma undated_sorts_before_year_end :
  date Sample.undated = None
  /\ PyTime.strptime_datetime (date_time_text Sample.year_end) <> None
  /\ get_sort_key Sample.undated <> PyTime.datetime_max
  /\ sort_by_date ∅ [Local Sample.year_end; Local Sample.undated]
     = [Local Sample.undated; Local Sample.year_end]
  /\ ~ sorts_after ∅ [Local Sample.year_end; Local Sample.undated]
         (Local Sample.undated) (Local Sample.year_end).
Proof.
  split; [reflexivity|]. split; [now vm_compute|]. split; [now vm_compute|].
  split; [reflexivity|].
  intros H. specialize (H 0%nat 1%nat eq_refl eq_refl). lia.
Qed.

(** A record dated "tomorrow" comes after a record whose text parses. *)
Lemma sort_by_date_ordered_stable_witness :
  sorts_after ∅ [Local Sample.bad_date; Local Sample.morning]
    (Local Sample.bad_date) (Local Sample.morning).
Proof.
  apply (proj1 (proj2 (proj2
           (sort_by_date_ordered_stable ∅
              [Local Sample.bad_date; Local Sample.morning])))).
  - reflexivity.
  - now vm_compute.
Defined.

(* ================================================================== *)
(** * The response and the store after a request *)





(** The shared dictionaries a working list refers to come from the
    collections the request selected. *)
Lemma select_events_shared h g c l :
  In (Shared l) (select_events h g c) ->
  (c = "jersey_city" /\ In l (jersey_city_events g))
  \/ (c = "hoboken" /\ In l (hoboken_events g))
  \/ In l (bookstore_events g).
Proof.
  assert (Hshared : forall ls, In (Shared l) (map Shared ls) -> In l ls).
  { intros ls H. apply in_map_iff in H as (l' & [= ->] & H). exact H. }
  assert (Hlocal : forall (f : loc -> event) ls,
             ~ In (Shared l) (map (fun l => Local (f l)) ls)).
  { intros f ls H. apply in_map_iff in H as (l' & Heq & _). discriminate. }
  unfold select_events, bookstore_in.
  destruct (String.eqb c "jersey_city") eqn:Ejc;
    [|destruct (String.eqb c "hoboken") eqn:Ehb]; rewrite !in_app_iff.
  - apply String.eqb_eq in Ejc. intros [H|H].
    + left. auto.
    + right. right. apply filter_In in H as [H _]. auto.
  - apply String.eqb_eq in Ehb. intros [H|H].
    + right. left. auto.
    + right. right. apply filter_In in H as [H _]. auto.
  - intros [H|[H|H]]; [now apply Hlocal in H|now apply Hlocal in H|].
    right. right. auto.
Qed.

(** X2: after a request, a dictionary of the store that survived the
    filters holds its annotation, every other dictionary is what it was, and
    no dictionary has lost or changed an attribute other than the three
    derived ones. *)
Theorem search_writes_survivors_only
    (today : Z) (g : snapshot) (q : query) (h : heap) (l : loc) :
  let survivors := filter_stages today h q (select_events h g (q_city q)) in
  let h' := snd (search today g q h) in
  (In (Shared l) survivors -> h' !!! l = annotate (h !!! l))
  /\ (~ In (Shared l) survivors -> h' !!! l = h !!! l)
  /\ same_source (h' !!! l) (h !!! l).
Proof.
  cbv zeta. rewrite search_heap. split; [|split].
  - apply add_duration_info_heap.
  - apply add_duration_info_unreferenced.
  - apply same_source_sym. rewrite <- search_heap. apply search_keeps_source.
Qed.

(** X3: a request writes to no dictionary outside the collections it
    selected: a request for both cities leaves every library dictionary
    alone, and a request for one city leaves the other city's library
    dictionaries alone (bookstore dictionaries apart). *)
Theorem search_leaves_unselected
    (today : Z) (g : snapshot) (q : query) (h : heap) (l : loc) :
  ~ In l (bookstore_events g) ->
  (q_city q = "jersey_city" -> ~ In l (jersey_city_events g)) ->
  (q_city q = "hoboken" -> ~ In l (hoboken_events g)) ->
  snd (search today g q h) !!! l = h !!! l.
Proof.
  intros Hbs Hjc Hhb.
  rewrite search_heap. apply add_duration_info_unreferenced.
  intros Hin.
  apply (selects_In (fun h => filter_stages today h q)) in Hin;
    [|apply selects_filter_stages].
  apply select_events_shared in Hin as [[Hc Hin]|[[Hc Hin]|Hin]]; tauto.
Qed.

(** A Jersey City record under a request for both cities. *)
Lemma search_leaves_unselected_witness :
  snd (search Sample.today Sample.collections Sample.both_query Sample.store)
    !!! 0%nat
  = Sample.store !!! 0%nat.
Proof.
  apply search_leaves_unselected.
  - intros [].
  - discriminate.
  - discriminate.
Defined.

(* ================================================================== *)
(** * How the stages compose *)

Lemma filter_commute {A : Type} (P Q : A -> bool) (l : list A) :
  List.filter P (List.filter Q l) = List.filter Q (List.filter P l).
Proof.
  rewrite !filter_filter. apply filter_ext. intros x. apply andb_comm.
Qed.

Lemma selects_commute F G h l :
  selects F -> selects G -> F h (G h l) = G h (F h l).
Proof.
  intros (P & _ & HF) (Q & _ & HG). rewrite !HF, !HG. apply filter_commute.
Qed.

Lemma selects_idempotent F h l : selects F -> F h (F h l) = F h l.
Proof.
  intros (P & _ & HF). rewrite !HF, filter_filter. apply filter_ext.
  intros x. now destruct (P (deref h x)).
Qed.

(** X4: the order of the filter stages does not matter: the seven stages
    applied in the opposite order select the same list, and applying the
    whole chain a second time removes nothing more. *)
Theorem filter_stages_any_order
    (today : Z) (h : heap) (q : query) (events : list ref) :
  filter_stages today h q events
  = filter_upcoming_events today h
      (date_range_stage today h q
         (age_stage h q
            (days_stage h q
               (time_stage h q
                  (venue_stage h q (type_stage h q events))))))
  /\ filter_stages today h q (filter_stages today h q events)
     = filter_stages today h q events.
Proof.
  split; [|apply (selects_idempotent (fun h => filter_stages today h q)),
             selects_filter_stages].
  unfold filter_stages.
  destruct (selects_upcoming today) as (P1 & _ & H1).
  destruct (selects_date_range_stage today q) as (P2 & _ & H2).
  destruct (selects_age_stage q) as (P3 & _ & H3).
  destruct (selects_days_stage q) as (P4 & _ & H4).
  destruct (selects_time_stage q) as (P5 & _ & H5).
  destruct (selects_venue_stage q) as (P6 & _ & H6).
  destruct (selects_type_stage q) as (P7 & _ & H7).
  rewrite !H1, !H2, !H3, !H4, !H5, !H6, !H7, !filter_filter.
  apply filter_ext. intros x.
  destruct (P1 (deref h x)), (P2 (deref h x)), (P3 (deref h x)),
    (P4 (deref h x)), (P5 (deref h x)), (P6 (deref h x)), (P7 (deref h x));
    reflexivity.
Qed.

Lemma filter_absorb {A : Type} (P Q : A -> bool) (l : list A) :
  (forall x, Q x = true -> P x = true) ->
  List.filter P (List.filter Q l) = List.filter Q l.
Proof.
  intros HPQ. rewrite filter_filter. apply filter_ext. intros x.
  destruct (Q x) eqn:E; [now rewrite (HPQ x E)|reflexivity].
Qed.

Lemma in_window_upcoming today end_date e :
  in_window today end_date e = true -> upcoming today e = true.
Proof.
  unfold in_window, upcoming. destruct (PyTime.strptime_date _); [|auto].
  rewrite andb_true_iff, Z.leb_le, Z.geb_le. tauto.
Qed.

Lemma in_window_wider today end1 end2 e :
  end1 <= end2 ->
  in_window today end1 e = true -> in_window today end2 e = true.
Proof.
  unfold in_window. destruct (PyTime.strptime_date _); [|auto].
  rewrite !andb_true_iff, !Z.leb_le. lia.
Qed.

Lemma filter_by_date_range_week today h events :
  filter_by_date_range today h events "week"
  = List.filter (fun r => in_window today (today + 7) (deref h r)) events.
Proof. reflexivity. Qed.

Lemma filter_by_date_range_2weeks today h events :
  filter_by_date_range today h events "2weeks"
  = List.filter (fun r => in_window today (today + 14) (deref h r)) events.
Proof. reflexivity. Qed.

Lemma filter_by_date_range_month today h events :
  filter_by_date_range today h events "month"
  = List.filter (fun r => in_window today (today + 30) (deref h r)) events.
Proof. reflexivity. Qed.

(** X5: the named date windows are nested: what "week" keeps, "2weeks"
    keeps, and what "2weeks" keeps, "month" keeps; any other window name,
    "all" included, filters nothing. *)
Theorem date_windows_nested
    (today : Z) (h : heap) (events : list ref) :
  (forall r, In r (filter_by_date_range today h events "week") ->
             In r (filter_by_date_range today h events "2weeks"))
  /\ (forall r, In r (filter_by_date_range today h events "2weeks") ->
                In r (filter_by_date_range today h events "month"))
  /\ (forall date_range,
        date_range <> "week" -> date_range <> "2weeks" ->
        date_range <> "month" ->
        filter_by_date_range today h events date_range = events).
Proof.
  rewrite filter_by_date_range_week, filter_by_date_range_2weeks,
    filter_by_date_range_month.
  split; [|split].
  - intros r. rewrite !filter_In. intros [Hin Hw]. split; [exact Hin|].
    revert Hw. apply in_window_wider. lia.
  - intros r. rewrite !filter_In. intros [Hin Hw]. split; [exact Hin|].
    revert Hw. apply in_window_wider. lia.
  - intros date_range Hw H2 Hm. unfold filter_by_date_range.
    apply String.eqb_neq in Hw, H2, Hm. now rewrite Hw, H2, Hm.
Qed.

(** X6: a named date window already leaves out the past: filtering the
    upcoming events of a windowed list removes nothing, and the two stages
    can be run in either order. *)
Theorem date_window_implies_upcoming
    (today : Z) (h : heap) (events : list ref) (date_range : string) :
  date_range = "week" \/ date_range = "2weeks" \/ date_range = "month" ->
  filter_upcoming_events today h
    (filter_by_date_range today h events date_range)
  = filter_by_date_range today h events date_range
  /\ filter_by_date_range today h
       (filter_upcoming_events today h events) date_range
     = filter_by_date_range today h events date_range.
Proof.
  intros Hname.
  assert (Hfirst : filter_upcoming_events today h
                     (filter_by_date_range today h events date_range)
                   = filter_by_date_range today h events date_range).
  { unfold filter_upcoming_events.
    destruct Hname as [-> | [-> | ->]];
      rewrite ?filter_by_date_range_week, ?filter_by_date_range_2weeks,
        ?filter_by_date_range_month;
      apply filter_absorb; intros x; apply in_window_upcoming. }
  split; [exact Hfirst|].
  rewrite <- Hfirst.
  apply (selects_commute (fun h l => filter_by_date_range today h l date_range)
                         (filter_upcoming_events today)).
  - apply selects_date_range.
  - apply selects_upcoming.
Qed.

(** The window "week" on a list of two records, one of them past it. *)
Lemma date_window_implies_upcoming_witness :
  filter_upcoming_events Sample.today ∅
    (filter_by_date_range Sample.today ∅
       [Local Sample.soon; Local Sample.morning] "week")
  = filter_by_date_range Sample.today ∅
      [Local Sample.soon; Local Sample.morning] "week".
Proof.
  apply (date_window_implies_upcoming Sample.today ∅ _ "week"). now left.
Defined.

(* ================================================================== *)
(** * The remaining filters *)

Lemma mem_true x xs : PyStr.mem x xs = true <-> In x xs.
Proof.
  unfold PyStr.mem. rewrite existsb_exists. split.
  - intros (y & Hy & Heq). apply String.eqb_eq in Heq. now subst.
  - intros H. exists x. split; [exact H|apply String.eqb_refl].
Qed.

Lemma filter_by_time_of_day_In h events times r :
  In r (filter_by_time_of_day h events times)
  <-> In r events /\ (times = [] \/ time_keep times (deref h r) = true).
Proof.
  unfold filter_by_time_of_day. destruct times as [|t times].
  - tauto.
  - rewrite filter_In. split; [tauto|].
    intros [Hin [Hnil|Hk]]; [discriminate|tauto].
Qed.


(** X8: the time-of-day filter fails open and defaults to midnight: an event
    whose start hour does not parse is kept by every request, and an event
    with no start time counts as a morning event only. *)
Theorem time_of_day_missing_data
    (h : heap) (events : list ref) (times : list string) (r : ref) :
  In r events ->
  (PyStr.int (hd "" (PyStr.split ":"
                       (default "00:00:00" (start_time (deref h r))))) = None ->
   In r (filter_by_time_of_day h events times))
  /\ (start_time (deref h r) = None ->
      (In r (filter_by_time_of_day h events times)
       <-> times = [] \/ In "morning" times)).
Proof.
  intros Hin. rewrite filter_by_time_of_day_In. split.
  - intros Hnone. split; [exact Hin|]. right. unfold time_keep.
    now rewrite Hnone.
  - intros Hnone. unfold time_keep. rewrite Hnone. cbn [default from_option id].
    change (PyStr.int (hd "" (PyStr.split ":" "00:00:00"))) with (Some 0).
    cbn. rewrite !andb_false_r, !orb_false_r, andb_true_r, mem_true. tauto.
Qed.

(** A record with the start time "noon" under a request for evenings. *)
Lemma time_of_day_missing_data_witness :
  In (Local Sample.at_noon)
     (filter_by_time_of_day ∅ [Local Sample.at_noon] ["evening"]).
Proof.
  apply (proj1 (time_of_day_missing_data ∅ [Local Sample.at_noon]
                  ["evening"] (Local Sample.at_noon) (or_introl eq_refl))).
  reflexivity.
Defined.

(** X9: the venue filter compares exactly, with "library" for a record that
    has no venue type: such a record is kept by the request "library" and
    dropped by "bookstore"; the request "all" keeps everything. *)
Theorem venue_filter_defaults_to_library
    (h : heap) (events : list ref) (venue : string) (r : ref) :
  (In r (filter_by_venue_type h events venue)
   <-> In r events
       /\ (venue = "all" \/ default "library" (venue_type (deref h r)) = venue))
  /\ (venue_type (deref h r) = None ->
      (In r (filter_by_venue_type h events "library") <-> In r events)
      /\ ~ In r (filter_by_venue_type h events "bookstore")).
Proof.
  assert (Hiff : forall v,
             In r (filter_by_venue_type h events v)
             <-> In r events
                 /\ (v = "all" \/ default "library" (venue_type (deref h r)) = v)).
  { intros v. unfold filter_by_venue_type.
    destruct (String.eqb v "all") eqn:E.
    - apply String.eqb_eq in E. tauto.
    - apply String.eqb_neq in E. rewrite filter_In, String.eqb_eq. tauto. }
  split; [apply Hiff|].
  intros Hnone. rewrite !Hiff, Hnone. cbn [default from_option id].
  split; [tauto|]. intros [_ [H|H]]; discriminate.
Qed.

(** X10: the day filter compares day names without regard to case: a record
    is kept when no day is selected or when its day of the week, lowered,
    is the lowering of a selected day; a record with no day of the week is
    dropped as soon as a non-empty day is selected. *)
Theorem day_filter_ignores_case
    (h : heap) (events : list ref) (selected_days : list string) (r : ref) :
  (In r (filter_by_days h events selected_days)
   <-> In r events
       /\ (selected_days = []
           \/ exists d, In d selected_days
                        /\ PyStr.lower d
                           = PyStr.lower (default "" (day_of_week (deref h r)))))
  /\ (day_of_week (deref h r) = None ->
      selected_days <> [] -> ~ In "" selected_days ->
      ~ In r (filter_by_days h events selected_days)).
Proof.
  assert (Hiff : In r (filter_by_days h events selected_days)
                 <-> In r events
                     /\ (selected_days = []
                         \/ exists d, In d selected_days
                              /\ PyStr.lower d
                                 = PyStr.lower
                                     (default "" (day_of_week (deref h r))))).
  { unfold filter_by_days. destruct selected_days as [|d0 ds]; [tauto|].
    rewrite filter_In, mem_true, in_map_iff. split.
    - intros [Hin (d & Hd & Hind)]. split; [exact Hin|]. right. eauto.
    - intros [Hin [Hnil|(d & Hind & Hd)]]; [discriminate|]. eauto. }
  split; [exact Hiff|].
  intros Hnone Hne Hempty. rewrite Hiff, Hnone. cbn [default from_option id].
  intros [_ [Hnil|(d & Hind & Hd)]]; [contradiction|].
  apply Hempty. destruct d; [exact Hind|discriminate].
Qed.

(** A record without a day under a request for Mondays. *)
Lemma day_filter_ignores_case_witness :
  ~ In (Local Sample.morning)
       (filter_by_days ∅ [Local Sample.morning] ["Monday"]).
Proof.
  apply (proj2 (day_filter_ignores_case ∅ [Local Sample.morning] ["Monday"]
                  (Local Sample.morning))).
  - reflexivity.
  - discriminate.
  - intros [H|[]]. discriminate.
Defined.

(** X11: an event type the keyword table does not know filters nothing,
    like "all"; under a known type ("storytime", "arts", "steam", "music")
    a record with no title, no description and no categories is dropped. *)
Theorem event_type_unknown_or_blank
    (h : heap) (events : list ref) (event_type : string) (r : ref) :
  (event_type <> "storytime" -> event_type <> "arts" ->
   event_type <> "steam" -> event_type <> "music" ->
   filter_by_event_type h events event_type = events)
  /\ (event_type = "storytime" \/ event_type = "arts"
      \/ event_type = "steam" \/ event_type = "music" ->
      title (deref h r) = None -> description (deref h r) = None ->
      categories (deref h r) = None ->
      ~ In r (filter_by_event_type h events event_type)).
Proof.
  split.
  - intros H1 H2 H3 H4. unfold filter_by_event_type, type_keywords.
    apply String.eqb_neq in H1, H2, H3, H4. rewrite H1, H2, H3, H4.
    now destruct (String.eqb event_type "all").
  - intros Hknown Ht Hd Hc Hin.
    assert (Hdrop : forall kws,
               In kws [type_keywords "storytime"; type_keywords "arts";
                       type_keywords "steam"; type_keywords "music"] ->
               type_keep kws (deref h r) = false).
    { intros kws Hk. unfold type_keep. rewrite Ht, Hd, Hc.
      cbn [default from_option id].
      destruct Hk as [<-|[<-|[<-|[<-|[]]]]]; reflexivity. }
    destruct Hknown as [-> | [-> | [-> | ->]]];
      (apply filter_In in Hin as [_ Hin]; rewrite Hdrop in Hin;
       [discriminate|cbn; tauto]).
Qed.

(** The unknown type "sports" on a list of one record. *)
Lemma event_type_unknown_or_blank_witness :
  filter_by_event_type ∅ [Local Sample.morning] "sports"
  = [Local Sample.morning].
Proof.
  apply (proj1 (event_type_unknown_or_blank ∅ [Local Sample.morning] "sports"
                  (Local Sample.morning))); discriminate.
Defined.

(* ================================================================== *)
(** * Intervals, annotation and sorting *)

(** X12: the overlap test is symmetric in the two intervals, and for two
    well-formed intervals it holds exactly when some age lies in both. *)
Theorem check_age_overlap_common_age (a b c d : Z) :
  check_age_overlap a b c d = check_age_overlap c d a b
  /\ (a <= b -> c <= d ->
      (check_age_overlap a b c d = true
       <-> exists x, a <= x <= b /\ c <= x <= d)).
Proof.
  split.
  - apply eq_true_iff_eq. rewrite !check_age_overlap_spec. lia.
  - intros Hab Hcd. rewrite check_age_overlap_spec. split.
    + intros H. exists (Z.max a c). lia.
    + intros (x & Hx1 & Hx2). lia.
Qed.

(** The callers [3, 5] and the event [5, 8] share the age 5. *)
Lemma check_age_overlap_common_age_witness :
  check_age_overlap 3 5 5 8 = true <-> exists x, 3 <= x <= 5 /\ 5 <= x <= 8.
Proof.
  apply (proj2 (check_age_overlap_common_age 3 5 5 8)); lia.
Defined.

(** X13: the annotator always writes its three attributes, leaves every
    other attribute as it was, and annotating an annotated record changes
    nothing. *)
Theorem annotate_frame_idempotent (e : event) :
  (duration_hours (annotate e) <> None /\ is_all_day (annotate e) <> None
   /\ formatted_end_time (annotate e) <> None)
  /\ (title (annotate e) = title e /\ date (annotate e) = date e
      /\ start_time (annotate e) = start_time e
      /\ end_time (annotate e) = end_time e
      /\ day_of_week (annotate e) = day_of_week e
      /\ audience (annotate e) = audience e
      /\ description (annotate e) = description e
      /\ venue_type (annotate e) = venue_type e
      /\ categories (annotate e) = categories e
      /\ city (annotate e) = city e
      /\ passthrough (annotate e) = passthrough e)
  /\ annotate (annotate e) = annotate e.
Proof.
  split; [|split; [|apply annotate_idem]].
  - unfold annotate. destruct (String.eqb _ _); [now cbn|].
    destruct (PyTime.strptime_time _); [|now cbn].
    destruct (PyTime.strptime_time _); now cbn.
  - pose proof (annotate_source e) as H. unfold same_source in H.
    unfold no_duration, with_duration in H.
    injection H as H1 H2 H3 H4 H5 H6 H7 H8 H9 H10 H11. now repeat split.
Qed.

Lemma insert_sorted_head {A : Type} (key : A -> Z) (x : A) (l : list A) :
  Forall (key_le key x) l -> insert_sorted key x l = x :: l.
Proof.
  destruct 1 as [|y l Hy _]; [reflexivity|]. cbn.
  unfold key_le in Hy. now rewrite (proj2 (Z.leb_le _ _) Hy).
Qed.

Lemma Forall_filter_keep {A : Type} (Q : A -> Prop) (P : A -> bool) (l : list A) :
  Forall Q l -> Forall Q (List.filter P l).
Proof.
  induction 1 as [|y l Hy _ IH]; cbn; [constructor|].
  destruct (P y); [constructor; assumption|exact IH].
Qed.

Lemma insert_sorted_filter {A : Type} (key : A -> Z) (P : A -> bool)
    (x : A) (l : list A) :
  StronglySorted (key_le key) l ->
  List.filter P (insert_sorted key x l)
  = if P x then insert_sorted key x (List.filter P l) else List.filter P l.
Proof.
  induction 1 as [|y l Hl IH Hy]; [cbn; now destruct (P x)|].
  cbn [insert_sorted]. destruct (key x <=? key y) eqn:E.
  - cbn [List.filter]. destruct (P x); [|reflexivity].
    destruct (P y).
    + cbn [insert_sorted]. now rewrite E.
    + symmetry. apply insert_sorted_head, Forall_filter_keep.
      apply Z.leb_le in E. eapply List.Forall_impl; [|exact Hy].
      unfold key_le. intros; lia.
  - cbn [List.filter]. rewrite IH.
    destruct (P x), (P y); try reflexivity.
    cbn [insert_sorted]. now rewrite E.
Qed.

Lemma sorted_filter {A : Type} (key : A -> Z) (P : A -> bool) (l : list A) :
  List.filter P (sorted key l) = sorted key (List.filter P l).
Proof.
  induction l as [|x l IH]; [reflexivity|].
  cbn [sorted fold_right List.filter]. fold (sorted key l).
  rewrite insert_sorted_filter by apply sorted_ordered. rewrite IH.
  now destruct (P x).
Qed.

Lemma sorted_fixed {A : Type} (key : A -> Z) (l : list A) :
  StronglySorted (key_le key) l -> sorted key l = l.
Proof.
  induction 1 as [|y l Hl IH Hy]; [reflexivity|].
  cbn [sorted fold_right]. fold (sorted key l). rewrite IH.
  now apply insert_sorted_head.
Qed.

(** X14: sorting commutes with filtering (a test applied after the sorter
    gives what the sorter gives on the filtered list), and sorting a sorted
    list changes nothing. *)
Theorem sort_by_date_composes
    (h : heap) (events : list ref) (P : ref -> bool) :
  List.filter P (sort_by_date h events) = sort_by_date h (List.filter P events)
  /\ sort_by_date h (sort_by_date h events) = sort_by_date h events.
Proof.
  unfold sort_by_date. split; [apply sorted_filter|].
  apply sorted_fixed, sorted_ordered.
Qed.

(* ================================================================== *)
(** * The request as one test *)

Lemma date_range_stage_filter today h q l :
  date_range_stage today h q l
  = List.filter
      (fun r =>
         if String.eqb (q_date_range q) "week"
         then in_window today (today + 7) (deref h r)
         else if String.eqb (q_date_range q) "2weeks"
         then in_window today (today + 14) (deref h r)
         else if String.eqb (q_date_range q) "month"
         then in_window today (today + 30) (deref h r)
         else true) l.
Proof.
  unfold date_range_stage, filter_by_date_range.
  destruct (String.eqb (q_date_range q) "all") eqn:Eall.
  - apply String.eqb_eq in Eall. rewrite Eall. cbn. now rewrite filter_true.
  - cbn [negb].
    destruct (String.eqb (q_date_range q) "week"); [reflexivity|].
    destruct (String.eqb (q_date_range q) "2weeks"); [reflexivity|].
    destruct (String.eqb (q_date_range q) "month"); [reflexivity|].
    now rewrite filter_true.
Qed.

Lemma age_stage_filter h q l :
  age_stage h q l
  = List.filter
      (fun r =>
         match parse_age_input (q_kids_ages q) with
         | Some (user_min, user_max) => age_keep user_min user_max (deref h r)
         | None => true
         end) l.
Proof.
  unfold age_stage, filter_by_age.
  destruct (String.eqb (q_kids_ages q) "") eqn:E.
  - apply String.eqb_eq in E. rewrite E. cbn. now rewrite filter_true.
  - cbn [negb]. destruct (parse_age_input _) as [[a b]|];
      [reflexivity|now rewrite filter_true].
Qed.

Lemma days_stage_filter h q l :
  days_stage h q l
  = List.filter
      (fun r =>
         match q_days q with
         | [] => true
         | _ => PyStr.mem (PyStr.lower (default "" (day_of_week (deref h r))))
                          (map PyStr.lower (q_days q))
         end) l.
Proof.
  unfold days_stage, filter_by_days.
  destruct (q_days q); [now rewrite filter_true|reflexivity].
Qed.

Lemma time_stage_filter h q l :
  time_stage h q l
  = List.filter
      (fun r =>
         match q_time_of_day q with
         | [] => true
         | _ => time_keep (q_time_of_day q) (deref h r)
         end) l.
Proof.
  unfold time_stage, filter_by_time_of_day.
  destruct (q_time_of_day q); [now rewrite filter_true|reflexivity].
Qed.

Lemma venue_stage_filter h q l :
  venue_stage h q l
  = List.filter
      (fun r =>
         String.eqb (q_venue_type q) "all"
         || String.eqb (default "library" (venue_type (deref h r)))
                       (q_venue_type q)) l.
Proof.
  unfold venue_stage, filter_by_venue_type.
  destruct (String.eqb (q_venue_type q) "all");
    [cbn; now rewrite filter_true|reflexivity].
Qed.

Lemma type_stage_filter h q l :
  type_stage h q l
  = List.filter
      (fun r =>
         match type_keywords (q_event_type q) with
         | [] => true
         | keywords => type_keep keywords (deref h r)
         end) l.
Proof.
  unfold type_stage, filter_by_event_type.
  destruct (String.eqb (q_event_type q) "all") eqn:E.
  - apply String.eqb_eq in E. rewrite E. cbn. now rewrite filter_true.
  - cbn [negb]. destruct (type_keywords _);
      [now rewrite filter_true|reflexivity].
Qed.

Lemma filter_stages_filter today h q l :
  filter_stages today h q l
  = List.filter (fun r => request_test today q (deref h r)) l.
Proof.
  unfold filter_stages, filter_upcoming_events.
  rewrite type_stage_filter, venue_stage_filter, time_stage_filter,
    days_stage_filter, age_stage_filter, date_range_stage_filter.
  rewrite !filter_filter. apply filter_ext. intros r.
  unfold request_test. now rewrite !andb_assoc.
Qed.


Lemma search_results_In today g q h e :
  In e (results (fst (search today g q h)))
  <-> exists r, In r (select_events h g (q_city q))
                /\ request_test today q (deref h r) = true
                /\ e = annotate (deref h r).
Proof.
  rewrite search_results, sorted_In, in_map_iff, filter_stages_filter.
  split.
  - intros (r & <- & Hin). apply filter_In in Hin as [Hin Ht]. eauto.
  - intros (r & Hin & Ht & ->). exists r. split; [reflexivity|].
    apply filter_In. auto.
Qed.


(* ================================================================== *)
(** * The numbers a pattern captures *)

Lemma append_nil_r s : s ++ "" = s.
Proof.
  induction s as [|c s IH]; [reflexivity|].
  change (String c (s ++ "") = String c s). now rewrite IH.
Qed.

Lemma append_assoc s1 s2 s3 : (s1 ++ s2) ++ s3 = s1 ++ (s2 ++ s3).
Proof.
  induction s1 as [|c s1 IH]; [reflexivity|].
  change (String c ((s1 ++ s2) ++ s3) = String c (s1 ++ (s2 ++ s3))).
  now rewrite IH.
Qed.

Lemma length_append s1 s2 :
  String.length (s1 ++ s2) = (String.length s1 + String.length s2)%nat.
Proof.
  induction s1 as [|c s1 IH]; [reflexivity|].
  change (S (String.length (s1 ++ s2)) = S (String.length s1 + String.length s2)).
  now rewrite IH.
Qed.

Lemma substring_prefix pre s : substring 0 (String.length pre) (pre ++ s) = pre.
Proof.
  induction pre as [|c pre IH]; [now destruct s|].
  change (String c (substring 0 (String.length pre) (pre ++ s)) = String c pre).
  now rewrite IH.
Qed.

Lemma consumed_app pre s : Re.consumed (pre ++ s) s = pre.
Proof.
  unfold Re.consumed. rewrite length_append.
  replace (String.length pre + String.length s - String.length s)%nat
    with (String.length pre) by lia.
  apply substring_prefix.
Qed.

Lemma is_suffix_refl s : is_suffix s s.
Proof. now exists "". Qed.

Lemma is_suffix_trans s1 s2 s3 :
  is_suffix s1 s2 -> is_suffix s2 s3 -> is_suffix s1 s3.
Proof.
  intros (p1 & ->) (p2 & ->). exists (p2 ++ p1). now rewrite append_assoc.
Qed.

Lemma is_suffix_tail c s : is_suffix s (String c s).
Proof. now exists (String c ""). Qed.

(** A greedy repetition hands its continuation what follows a run of
    characters of the class, at least [min] of them. *)
Lemma rep_greedy_run {A} p min s (k : string -> option A) x :
  Re.rep_greedy p min s k = Some x ->
  exists pre s', s = pre ++ s' /\ all_of p pre = true
                 /\ (min <= String.length pre)%nat /\ k s' = Some x.
Proof.
  revert min. induction s as [|c s IH]; intros min; cbn [Re.rep_greedy].
  - destruct (min =? 0)%nat eqn:E; [|discriminate]. apply Nat.eqb_eq in E.
    intros H. exists "", "". repeat split; [cbn; lia|exact H].
  - assert (Hstop : (if (min =? 0)%nat then k (String c s) else None) = Some x ->
              exists pre s', String c s = pre ++ s' /\ all_of p pre = true
                 /\ (min <= String.length pre)%nat /\ k s' = Some x).
    { destruct (min =? 0)%nat eqn:E; [|discriminate]. apply Nat.eqb_eq in E.
      intros H. exists "", (String c s). repeat split; [cbn; lia|exact H]. }
    destruct (p c) eqn:Ec; [|exact Hstop].
    destruct (Re.rep_greedy p (Nat.pred min) s k) eqn:E; [|exact Hstop].
    intros [= ->]. apply IH in E as (pre & s' & -> & Hall & Hlen & Hk).
    exists (String c pre), s'. repeat split.
    + cbn. now rewrite Ec, Hall.
    + cbn. lia.
    + exact Hk.
Qed.

(** A successful match of a shaped pattern extends the captures by [n]
    digit runs and continues on a suffix of the text. *)
Lemma rmatch_shape {A} r n :
  shape r n ->
  forall s caps (k : string -> list string -> option A) x,
    Re.rmatch r s caps k = Some x ->
    exists s' caps',
      k s' (caps ++ caps')%list = Some x /\ length caps' = n
      /\ Forall digit_run caps' /\ is_suffix s' s.
Proof.
  induction 1 as [|c|p|r1 r2 n1 n2 n _ IH1 _ IH2 ->|r1 r2 n _ IH1 _ IH2
                  |r _ IH|min p|min]; intros s caps k x; cbn [Re.rmatch].
  - intros H. exists s, []. rewrite app_nil_r.
    repeat split; [exact H|constructor|apply is_suffix_refl].
  - destruct s as [|c' s]; [discriminate|].
    destruct (Ascii.eqb c c'); [|discriminate].
    intros H. exists s, []. rewrite app_nil_r.
    repeat split; [exact H|constructor|apply is_suffix_tail].
  - destruct s as [|c' s]; [discriminate|].
    destruct (p c'); [|discriminate].
    intros H. exists s, []. rewrite app_nil_r.
    repeat split; [exact H|constructor|apply is_suffix_tail].
  - intros H. apply IH1 in H as (s1 & c1 & H & Hl1 & Hd1 & Hs1).
    apply IH2 in H as (s2 & c2 & H & Hl2 & Hd2 & Hs2).
    exists s2, (c1 ++ c2)%list. rewrite app_assoc, length_app.
    repeat split; [exact H|lia|now apply List.Forall_app
                  |eapply is_suffix_trans; eassumption].
  - destruct (Re.rmatch r1 s caps k) eqn:E.
    + intros [= ->]. now apply IH1 in E.
    + apply IH2.
  - destruct (Re.rmatch r s caps k) eqn:E.
    + intros [= ->]. now apply IH in E.
    + intros H. exists s, []. rewrite app_nil_r.
      repeat split; [exact H|constructor|apply is_suffix_refl].
  - intros H. apply rep_greedy_run in H as (pre & s' & -> & _ & _ & H).
    exists s', []. rewrite app_nil_r.
    repeat split; [exact H|constructor|now exists pre].
  - intros H. apply rep_greedy_run in H as (pre & s' & -> & Hall & Hlen & H).
    rewrite consumed_app in H. exists s', [pre].
    repeat split; [exact H| |now exists pre].
    constructor; [|constructor]. split; [exact Hall|].
    intros ->. cbn in Hlen. lia.
Qed.

Lemma search_inv r s caps :
  Re.search r s = Some caps ->
  exists s', is_suffix s' s
             /\ Re.rmatch r s' [] (fun _ caps => Some caps) = Some caps.
Proof.
  induction s as [|c s IH]; cbn [Re.search].
  - destruct (Re.rmatch r "" [] _) eqn:E; [|discriminate].
    intros [= ->]. exists "". split; [apply is_suffix_refl|exact E].
  - destruct (Re.rmatch r (String c s) [] _) eqn:E.
    + intros [= ->]. exists (String c s). split; [apply is_suffix_refl|exact E].
    + intros H. apply IH in H as (s' & Hs & H). exists s'. split; [|exact H].
      eapply is_suffix_trans; [exact Hs|apply is_suffix_tail].
Qed.

Lemma search_shape r n s caps :
  shape r n -> Re.search r s = Some caps ->
  length caps = n /\ Forall digit_run caps.
Proof.
  intros Hr H. apply search_inv in H as (s' & _ & H).
  apply (rmatch_shape _ _ Hr) in H as (s2 & caps' & [= <-] & Hl & Hd & _).
  auto.
Qed.

(* ================================================================== *)
(** * What [int] makes of a text *)

Lemma is_digit_range c :
  PyStr.is_digit c = true <-> (48 <= nat_of_ascii c <= 57)%nat.
Proof.
  unfold PyStr.is_digit. cbv zeta. rewrite andb_true_iff, !Nat.leb_le. tauto.
Qed.

Lemma is_digit_not_space c : PyStr.is_digit c = true -> PyStr.is_space c = false.
Proof.
  rewrite is_digit_range. intros H. unfold PyStr.is_space. cbv zeta.
  apply orb_false_iff. split; apply andb_false_iff.
  - right. apply Nat.leb_gt. lia.
  - right. apply Nat.leb_gt. lia.
Qed.

Lemma digit_val_nonneg c : PyStr.is_digit c = true -> 0 <= PyStr.digit_val c.
Proof. rewrite is_digit_range. unfold PyStr.digit_val. lia. Qed.

(** The three cases of [int] after the blanks are stripped. *)
Lemma int_unfold s :
  PyStr.int s
  = match PyStr.strip s with
    | String c s' =>
        if Ascii.eqb c "+" then PyStr.int_digits s' false 0
        else if Ascii.eqb c "-"
        then option_map Z.opp (PyStr.int_digits s' false 0)
        else PyStr.int_digits (String c s') false 0
    | EmptyString => PyStr.int_digits EmptyString false 0
    end.
Proof.
  unfold PyStr.int. destruct (PyStr.strip s) as [|c s']; [reflexivity|].
  destruct c as [[] [] [] [] [] [] [] []]; reflexivity.
Qed.

Lemma int_digits_nonneg s prev acc v :
  0 <= acc -> PyStr.int_digits s prev acc = Some v -> 0 <= v.
Proof.
  revert prev acc. induction s as [|c s IH]; intros prev acc Hacc; cbn.
  - destruct prev; [|discriminate]. now intros [= <-].
  - destruct (PyStr.is_digit c) eqn:Ec.
    + apply IH. pose proof (digit_val_nonneg c Ec). lia.
    + destruct (Ascii.eqb c "_" && prev); [|discriminate].
      destruct s as [|d s']; [discriminate|].
      destruct (PyStr.is_digit d); [|discriminate]. now apply IH.
Qed.

Lemma int_digits_run s prev acc :
  all_of PyStr.is_digit s = true -> s <> "" \/ prev = true -> 0 <= acc ->
  exists v, PyStr.int_digits s prev acc = Some v /\ 0 <= v.
Proof.
  revert prev acc. induction s as [|c s IH]; intros prev acc Hall Hne Hacc.
  - destruct Hne as [Hne | ->]; [now elim Hne|]. cbn. eauto.
  - cbn in Hall. apply andb_true_iff in Hall as [Hc Hall].
    cbn. rewrite Hc. apply IH; [exact Hall|now right|].
    pose proof (digit_val_nonneg c Hc). lia.
Qed.

Lemma rev_app_all_of p s1 s2 :
  all_of p (String.rev_app s1 s2) = all_of p s1 && all_of p s2.
Proof.
  revert s2. induction s1 as [|c s1 IH]; intros s2; [reflexivity|].
  cbn. rewrite IH. cbn. now rewrite andb_assoc, (andb_comm (all_of p s1)).
Qed.

Lemma rev_app_has c s1 s2 :
  has c (String.rev_app s1 s2) = has c s1 || has c s2.
Proof.
  revert s2. induction s1 as [|c' s1 IH]; intros s2; [reflexivity|].
  cbn. rewrite IH. cbn.
  now rewrite orb_assoc, (orb_comm (has c s1)).
Qed.

Lemma rev_app_rev_app s1 s2 s3 :
  String.rev_app (String.rev_app s1 s2) s3 = String.rev_app s2 (s1 ++ s3).
Proof.
  revert s2 s3. induction s1 as [|c s1 IH]; intros s2 s3; [reflexivity|].
  cbn [String.rev_app]. now rewrite IH.
Qed.

Lemma rev_rev s : String.rev (String.rev s) = s.
Proof.
  unfold String.rev. rewrite rev_app_rev_app. cbn. apply append_nil_r.
Qed.

Lemma lstrip_digits s : all_of PyStr.is_digit s = true -> PyStr.lstrip s = s.
Proof.
  destruct s as [|c s]; [reflexivity|]. cbn.
  intros H. apply andb_true_iff in H as [Hc _].
  now rewrite (is_digit_not_space c Hc).
Qed.

Lemma strip_digits s : all_of PyStr.is_digit s = true -> PyStr.strip s = s.
Proof.
  intros H. unfold PyStr.strip. rewrite (lstrip_digits s H).
  rewrite lstrip_digits; [apply rev_rev|].
  unfold String.rev. now rewrite rev_app_all_of, H.
Qed.

(** [int] of a run of digits is a natural number. *)
Lemma int_digit_run s :
  digit_run s -> exists v, PyStr.int s = Some v /\ 0 <= v.
Proof.
  intros [Hall Hne]. rewrite int_unfold, (strip_digits s Hall).
  destruct s as [|c s]; [now elim Hne|].
  pose proof Hall as Hall'. cbn in Hall'.
  apply andb_true_iff in Hall' as [Hc _].
  destruct (Ascii.eqb c "+") eqn:E1;
    [apply Ascii.eqb_eq in E1; subst c; discriminate|].
  destruct (Ascii.eqb c "-") eqn:E2;
    [apply Ascii.eqb_eq in E2; subst c; discriminate|].
  apply int_digits_run; [exact Hall|now left|lia].
Qed.

Lemma lstrip_has c s : has c (PyStr.lstrip s) = true -> has c s = true.
Proof.
  induction s as [|c' s IH]; [auto|]. cbn [PyStr.lstrip].
  destruct (PyStr.is_space c'); [|auto].
  intros H. cbn. rewrite (IH H). apply orb_true_r.
Qed.

Lemma rev_has c s : has c (String.rev s) = has c s.
Proof. unfold String.rev. rewrite rev_app_has. cbn. apply orb_false_r. Qed.

Lemma strip_has c s : has c (PyStr.strip s) = true -> has c s = true.
Proof.
  unfold PyStr.strip. rewrite rev_has. intros H.
  apply lstrip_has in H. rewrite rev_has in H. now apply lstrip_has.
Qed.

(** [int] yields a negative number only for a text with a minus sign. *)
Lemma int_nonneg s v : has "-" s = false -> PyStr.int s = Some v -> 0 <= v.
Proof.
  intros Hno. rewrite int_unfold.
  destruct (PyStr.strip s) as [|c s'] eqn:Es; [discriminate|].
  destruct (Ascii.eqb c "+"); [apply int_digits_nonneg; lia|].
  destruct (Ascii.eqb c "-") eqn:E; [|apply int_digits_nonneg; lia].
  apply Ascii.eqb_eq in E. subst c.
  assert (H : has "-" (PyStr.strip s) = true) by now rewrite Es.
  apply strip_has in H. congruence.
Qed.

Lemma prefix_char c s :
  String.prefix (String c "") s
  = match s with String c' _ => Ascii.eqb c c' | EmptyString => false end.
Proof.
  destruct s as [|c' s]; [reflexivity|]. cbn.
  destruct (ascii_dec c c') as [->|Hne].
  - rewrite Ascii.eqb_refl. now destruct s.
  - symmetry. now apply Ascii.eqb_neq.
Qed.

Lemma contains_char c s : PyStr.contains (String c "") s = has c s.
Proof.
  induction s as [|c' s IH]; [reflexivity|].
  cbn [PyStr.contains has]. now rewrite prefix_char, IH.
Qed.

Lemma split_aux_no_sep sep s acc part :
  has sep acc = false -> In part (PyStr.split_aux sep s acc) ->
  has sep part = false.
Proof.
  revert acc. induction s as [|c s IH]; intros acc Hacc; cbn [PyStr.split_aux].
  - intros [<-|[]]. now rewrite rev_has.
  - destruct (Ascii.eqb c sep) eqn:E.
    + intros [<-|Hin]; [now rewrite rev_has|]. now apply (IH "").
    + apply IH. cbn. rewrite Hacc, orb_false_r.
      rewrite Ascii.eqb_sym. exact E.
Qed.

(* ================================================================== *)
(** * The age patterns *)

Ltac shape_tac :=
  repeat first
    [ apply shape_eps | apply shape_chr | apply shape_cls | apply shape_rep
    | apply shape_grp | apply shape_opt | apply shape_alt | eapply shape_seq ];
  reflexivity.

Lemma shape_pattern1 : shape pattern1 2.
Proof.
  cbv [pattern1 Re.seqs Re.lit Re.digits1 Re.spaces0 Re.spaces1]. shape_tac.
Qed.

Lemma shape_pattern2 : shape pattern2 2.
Proof.
  cbv [pattern2 Re.seqs Re.lit Re.digits1 Re.spaces0 Re.spaces1]. shape_tac.
Qed.

Lemma shape_pattern3 : shape pattern3 2.
Proof.
  cbv [pattern3 Re.seqs Re.lit Re.digits1 Re.spaces0 Re.spaces1]. shape_tac.
Qed.

Lemma shape_audience_pattern : shape audience_pattern 2.
Proof.
  cbv [audience_pattern Re.seqs Re.lit Re.digits1 Re.spaces0 Re.spaces1].
  shape_tac.
Qed.

(** A pattern with two digit groups yields a pair of natural numbers
    whenever it matches. *)
Lemma search_pair_shape r s :
  shape r 2 ->
  match Re.search r s with
  | Some _ => exists a b, search_pair r s = Some (a, b) /\ 0 <= a /\ 0 <= b
  | None => search_pair r s = None
  end.
Proof.
  intros Hr. unfold search_pair.
  destruct (Re.search r s) as [caps|] eqn:E; [|reflexivity].
  apply (search_shape _ _ _ _ Hr) in E as [Hlen Hd].
  destruct caps as [|d1 [|d2 [|? ?]]]; try discriminate.
  inversion Hd as [|? ? Hd1 Hd']; subst. inversion Hd' as [|? ? Hd2 _]; subst.
  apply int_digit_run in Hd1 as (a & Ha & Ha0).
  apply int_digit_run in Hd2 as (b & Hb & Hb0).
  exists a, b. cbn. rewrite Ha, Hb. auto.
Qed.

Lemma search_pair_natural r s a b :
  shape r 2 -> search_pair r s = Some (a, b) -> 0 <= a /\ 0 <= b.
Proof.
  intros Hr H. pose proof (search_pair_shape r s Hr) as Hs.
  destruct (Re.search r s).
  - destruct Hs as (a' & b' & Heq & Ha & Hb). rewrite H in Heq.
    injection Heq as -> ->. auto.
  - congruence.
Qed.

(** X16: the numbers read from a text are never negative: both bounds of an
    interval extracted from a description, and both bounds of the number
    pair found in an audience, are natural numbers. *)
Theorem extracted_ages_are_natural (text : string) (a b : Z) :
  (extract_age_range_from_text text = Some (a, b) -> 0 <= a /\ 0 <= b)
  /\ (search_pair audience_pattern text = Some (a, b) -> 0 <= a /\ 0 <= b).
Proof.
  split; [|apply search_pair_natural, shape_audience_pattern].
  unfold extract_age_range_from_text.
  destruct (String.eqb text ""); [discriminate|].
  destruct (search_pair pattern1 _) as [[a1 b1]|] eqn:E1.
  - intros [= <- <-]. eapply search_pair_natural; [apply shape_pattern1|exact E1].
  - destruct (search_pair pattern2 _) as [[a2 b2]|] eqn:E2.
    + intros [= <- <-].
      eapply search_pair_natural; [apply shape_pattern2|exact E2].
    + apply search_pair_natural, shape_pattern3.
Qed.

Lemma rep_greedy_succeeds {A B} p min s
    (k1 : string -> option A) (k2 : string -> option B) :
  (forall s', k1 s' <> None -> k2 s' <> None) ->
  Re.rep_greedy p min s k1 <> None -> Re.rep_greedy p min s k2 <> None.
Proof.
  intros Hk. revert min. induction s as [|c s IH]; intros min;
    cbn [Re.rep_greedy].
  - destruct (min =? 0)%nat; [apply Hk|auto].
  - destruct (p c); [|destruct (min =? 0)%nat; [apply Hk|auto]].
    specialize (IH (Nat.pred min)).
    destruct (Re.rep_greedy p (Nat.pred min) s k1),
      (Re.rep_greedy p (Nat.pred min) s k2); try discriminate.
    + intros _. elim IH; [discriminate|reflexivity].
    + destruct (min =? 0)%nat; [apply Hk|auto].
Qed.

(** Whether a pattern matches at a place depends neither on the captures so
    far nor on what the continuation returns, only on where it succeeds. *)
Lemma rmatch_succeeds {A B} r s caps1 caps2
    (k1 : string -> list string -> option A)
    (k2 : string -> list string -> option B) :
  (forall s' c1 c2, k1 s' c1 <> None -> k2 s' c2 <> None) ->
  Re.rmatch r s caps1 k1 <> None -> Re.rmatch r s caps2 k2 <> None.
Proof.
  revert s caps1 caps2 k1 k2.
  induction r as [|c|p|r1 IH1 r2 IH2|r1 IH1 r2 IH2|r1 IH1|min p|r1 IH1];
    intros s caps1 caps2 k1 k2 Hk; cbn [Re.rmatch].
  - apply Hk.
  - destruct s as [|c' s]; [auto|]. destruct (Ascii.eqb c c'); [apply Hk|auto].
  - destruct s as [|c' s]; [auto|]. destruct (p c'); [apply Hk|auto].
  - apply IH1. intros s' c1 c2. now apply IH2.
  - specialize (IH1 s caps1 caps2 k1 k2 Hk).
    specialize (IH2 s caps1 caps2 k1 k2 Hk).
    destruct (Re.rmatch r1 s caps1 k1), (Re.rmatch r1 s caps2 k2);
      try discriminate; auto.
    intros _. elim IH1; [discriminate|reflexivity].
  - specialize (IH1 s caps1 caps2 k1 k2 Hk).
    destruct (Re.rmatch r1 s caps1 k1), (Re.rmatch r1 s caps2 k2);
      try discriminate; auto.
    + intros _. elim IH1; [discriminate|reflexivity].
    + apply Hk.
  - apply rep_greedy_succeeds. intros s'. apply Hk.
  - apply IH1. intros s' c1 c2. apply Hk.
Qed.

Lemma search_succeeds r s s' :
  is_suffix s' s ->
  Re.rmatch r s' [] (fun _ caps => Some caps) <> None ->
  Re.search r s <> None.
Proof.
  intros (pre & ->). induction pre as [|c pre IH]; intros Hm.
  - change ("" ++ s') with s'. destruct s'; cbn [Re.search];
      destruct (Re.rmatch r _ [] _); congruence.
  - change (String c pre ++ s') with (String c (pre ++ s')).
    cbn [Re.search]. destruct (Re.rmatch r (String c (pre ++ s')) [] _);
      [discriminate|auto].
Qed.

(** Where "for ages X-Y" matches, "ages X-Y" matches. *)
Lemma pattern2_within_pattern1 s :
  Re.search pattern1 s = None -> Re.search pattern2 s = None.
Proof.
  intros H1. destruct (Re.search pattern2 s) as [caps|] eqn:E2; [|reflexivity].
  exfalso. apply search_inv in E2 as (s1 & Hs1 & E2).
  change pattern2
    with (Re.Seq (Re.lit "for") (Re.Seq Re.spaces1 pattern1)) in E2.
  cbn [Re.rmatch] in E2.
  assert (Hfor : shape (Re.lit "for") 0) by (cbv [Re.lit]; shape_tac).
  apply (rmatch_shape _ _ Hfor) in E2 as (s2 & c2 & E2 & _ & _ & Hs2).
  assert (Hsp : shape Re.spaces1 0) by apply shape_rep.
  apply (rmatch_shape _ _ Hsp) in E2 as (s3 & c3 & E2 & _ & _ & Hs3).
  assert (Hsuffix : is_suffix s3 s)
    by (eapply is_suffix_trans; [|exact Hs1];
        eapply is_suffix_trans; eassumption).
  apply (search_succeeds pattern1 s s3 Hsuffix); [|exact H1].
  apply (rmatch_succeeds pattern1 s3 (([] ++ c2) ++ c3)%list []
           (fun _ caps => Some caps) (fun _ caps => Some caps));
    [discriminate|congruence].
Qed.

(** X17: the second pattern of the extractor ("for ages X-Y") never
    decides: the extractor returns what the first pattern ("ages X-Y")
    finds, and otherwise what the third ("X-Y years old") finds. *)
Theorem for_ages_pattern_never_decides (text : string) :
  extract_age_range_from_text text
  = if String.eqb text "" then None
    else match search_pair pattern1 (PyStr.lower text) with
         | Some range => Some range
         | None => search_pair pattern3 (PyStr.lower text)
         end.
Proof.
  unfold extract_age_range_from_text.
  destruct (String.eqb text ""); [reflexivity|].
  destruct (search_pair pattern1 (PyStr.lower text)) eqn:E1; [reflexivity|].
  pose proof (search_pair_shape pattern1 (PyStr.lower text) shape_pattern1) as H1.
  destruct (Re.search pattern1 (PyStr.lower text)) eqn:Es1.
  - destruct H1 as (a & b & H1 & _). congruence.
  - unfold search_pair at 1.
    now rewrite (pattern2_within_pattern1 _ Es1).
Qed.

Lemma lower_char_idem c :
  PyStr.lower_char (PyStr.lower_char c) = PyStr.lower_char c.
Proof. destruct c as [[] [] [] [] [] [] [] []]; reflexivity. Qed.

Lemma lower_idem s : PyStr.lower (PyStr.lower s) = PyStr.lower s.
Proof.
  induction s as [|c s IH]; [reflexivity|].
  cbn [PyStr.lower]. now rewrite lower_char_idem, IH.
Qed.

Lemma lower_empty s : String.eqb (PyStr.lower s) "" = String.eqb s "".
Proof. now destruct s. Qed.

(** X18: the extractor ignores letter case: two texts with the same
    lowering yield the same interval, and so do a text and its lowering. *)
Theorem extractor_ignores_case (text1 text2 : string) :
  (PyStr.lower text1 = PyStr.lower text2 ->
   extract_age_range_from_text text1 = extract_age_range_from_text text2)
  /\ extract_age_range_from_text (PyStr.lower text1)
     = extract_age_range_from_text text1.
Proof.
  assert (H : forall t1 t2, PyStr.lower t1 = PyStr.lower t2 ->
                extract_age_range_from_text t1
                = extract_age_range_from_text t2).
  { intros t1 t2 Heq. unfold extract_age_range_from_text.
    rewrite <- (lower_empty t1), <- (lower_empty t2), Heq. reflexivity. }
  split; [apply H|]. apply H, lower_idem.
Qed.

(** "AGES 3-5" reads as "ages 3-5". *)
Lemma extractor_ignores_case_witness :
  extract_age_range_from_text "AGES 3-5"
  = extract_age_range_from_text "ages 3-5".
Proof.
  apply (proj1 (extractor_ignores_case "AGES 3-5" "ages 3-5")). reflexivity.
Defined.

(** X19: the caller's interval never has a negative bound: whatever age
    string parses, parses to natural numbers, and an age string that starts
    with a minus sign does not parse (the filter then keeps every event). *)
Theorem parse_age_input_natural (age_input : string) :
  (forall a b, parse_age_input age_input = Some (a, b) -> 0 <= a /\ 0 <= b)
  /\ parse_age_input (String "-" age_input) = None
  /\ (forall h events,
        filter_by_age h events (String "-" age_input) = events).
Proof.
  assert (Hminus : parse_age_input (String "-" age_input) = None).
  { unfold parse_age_input.
    change "-"%string with (String "-"%char "").
    rewrite contains_char. reflexivity. }
  split; [|split; [exact Hminus|]].
  - intros a b. unfold parse_age_input.
    destruct (PyStr.contains "-" age_input) eqn:Ec.
    + pose proof (split_aux_no_sep "-" age_input "") as Hparts.
      unfold PyStr.split.
      destruct (PyStr.split_aux "-" age_input "") as [|p1 [|p2 [|? ?]]];
        cbn [map].
      * discriminate.
      * destruct (PyStr.int p1); discriminate.
      * destruct (PyStr.int p1) as [v1|] eqn:E1; [|discriminate].
        destruct (PyStr.int p2) as [v2|] eqn:E2; [|discriminate].
        intros [= <- <-]. split.
        -- apply (int_nonneg p1); [|exact E1].
           apply Hparts; [reflexivity|now left].
        -- apply (int_nonneg p2); [|exact E2].
           apply Hparts; [reflexivity|right; now left].
      * destruct (PyStr.int p1); [|discriminate].
        destruct (PyStr.int p2); discriminate.
    + change "-"%string with (String "-"%char "") in Ec.
      rewrite contains_char in Ec.
      destruct (PyStr.int age_input) as [v|] eqn:E; [|discriminate].
      intros [= <- <-]. split; now apply (int_nonneg age_input).
  - intros h events. unfold filter_by_age. now rewrite Hminus.
Qed.

(* ================================================================== *)
(** * Wider ranges and provenance *)






(** X21: every record of a response comes from a loaded collection: under a
    request for one city it is the annotation of a library record of that
    city or of a bookstore record whose city, lowered, names it; under any
    other request it is the annotation of a library record retagged with its
    city, or of a bookstore record as it is. *)
Theorem results_provenance
    (today : Z) (g : snapshot) (q : query) (h : heap) (e : event) :
  In e (results (fst (search today g q h))) ->
  exists l,
    (q_city q = "jersey_city"
     /\ e = annotate (h !!! l)
     /\ (In l (jersey_city_events g)
         \/ In l (bookstore_events g)
            /\ PyStr.lower (default "" (city (h !!! l))) = "jersey city"))
    \/ (q_city q = "hoboken"
        /\ e = annotate (h !!! l)
        /\ (In l (hoboken_events g)
            \/ In l (bookstore_events g)
               /\ PyStr.lower (default "" (city (h !!! l))) = "hoboken"))
    \/ (q_city q <> "jersey_city" /\ q_city q <> "hoboken"
        /\ (In l (jersey_city_events g)
            /\ e = annotate (with_city (h !!! l) "Jersey City")
            \/ In l (hoboken_events g)
               /\ e = annotate (with_city (h !!! l) "Hoboken")
            \/ In l (bookstore_events g) /\ e = annotate (h !!! l))).
Proof.
  intros Hin.
  apply search_results_In in Hin as (r & Hin & _ & ->).
  unfold select_events, bookstore_in in Hin.
  destruct (String.eqb (q_city q) "jersey_city") eqn:Ejc;
    [|destruct (String.eqb (q_city q) "hoboken") eqn:Ehb].
  - apply String.eqb_eq in Ejc. apply in_app_iff in Hin as [Hin|Hin].
    + apply in_map_iff in Hin as (l & <- & Hl). exists l. left. auto.
    + apply filter_In in Hin as [Hin Hc].
      apply in_map_iff in Hin as (l & <- & Hl).
      apply String.eqb_eq in Hc. exists l. left. auto.
  - apply String.eqb_eq in Ehb. apply in_app_iff in Hin as [Hin|Hin].
    + apply in_map_iff in Hin as (l & <- & Hl). exists l. right. left. auto.
    + apply filter_In in Hin as [Hin Hc].
      apply in_map_iff in Hin as (l & <- & Hl).
      apply String.eqb_eq in Hc. exists l. right. left. auto.
  - apply String.eqb_neq in Ejc, Ehb.
    apply in_app_iff in Hin as [Hin|Hin];
      [|apply in_app_iff in Hin as [Hin|Hin]];
      apply in_map_iff in Hin as (l & <- & Hl); exists l; right; right;
      (split; [exact Ejc|split; [exact Ehb|]]); cbn [deref]; auto.
Qed.

(** The bookstore record two days ahead under a request for both cities. *)
Lemma results_provenance_witness :
  exists l,
    In l (bookstore_events Sample.bookstore_only)
    /\ annotate Sample.soon = annotate (Sample.store_soon !!! l).
Proof.
  destruct (results_provenance Sample.today Sample.bookstore_only
              Sample.both_query Sample.store_soon (annotate Sample.soon))
    as (l & [(Hc & _)|[(Hc & _)|(_ & _ & [(Hl & _)|[(Hl & _)|(Hl & He)]])]]).
  - vm_compute. now left.
  - discriminate.
  - discriminate.
  - destruct Hl.
  - destruct Hl.
  - exists l. auto.
Defined.
